(** * radar_signal_processor.py: proximity classification and event triggers

    A shallow embedding of [CiscoSignalProcessor] (src/radar_signal_processor.py)
    and the properties of its three methods, [analyze_packet],
    [_calculate_proximity] and [_trigger_events].

    Modelling choices.
    - A packet is a Python [dict] with string keys: [gmap string pyval].
    - A value of the dict is a Python object of one of the types a decoded
      JSON scalar can have: [None], [bool], [int], [float], [str].  Python
      integers are unbounded ([Z]) and the interpreter's optional limit on
      the length of integer/string conversions is not modelled; a float is
      an IEEE-754 value ([spec_float]); a string is a sequence of ASCII
      characters.
    - [int(x)] either returns an integer or raises: [result Z].
    - [logging.warning], [logging.info] and [logging.error] append a record to
      the log; a method's effect is the list of records it emits.
    - The only part of the interpreter left abstract is the text
      [str] produces for a float ([float_repr]), a section variable.
    - [_trigger_events] returns nothing; its embedding returns the exit it
      takes ([Action]), and [emit] gives the records logged on that exit.
    - The driver [mock_cisco_data_stream] loops forever on random draws; its
      embedding runs the loop on a finite list of draws and returns what was
      printed and logged and the [mock_data] reached, or the exception that
      ended it. *)

From Stdlib Require Import ZArith Bool List Ascii String Lia.
From Stdlib Require Import Floats.SpecFloat.
From stdpp Require Import base option strings gmap pretty.

Local Open Scope Z_scope.
Local Open Scope string_scope.

(** ** Python values, exceptions and results *)

Inductive pyval : Type :=
| PNone
| PBool (b : bool)
| PInt (z : Z)
| PFloat (f : spec_float)
| PStr (s : string).

Inductive py_exn : Type :=
| TypeError
| ValueError
| OverflowError.

Inductive result (A : Type) : Type :=
| Ok (a : A)
| Raise (e : py_exn).

Arguments Ok {A} a.
Arguments Raise {A} e.

#[global] Instance result_bind : MBind result := fun A B k r =>
  match r with
  | Ok a => k a
  | Raise e => Raise e
  end.

Definition raises {A : Type} (r : result A) : Prop :=
  exists e, r = Raise e.

(** ** [int(x)] *)

Module PyInt.

(** The characters [int] skips around an ASCII literal: TAB, LF, VT, FF, CR
    and the space. *)
Definition is_space (c : ascii) : bool :=
  let n := nat_of_ascii c in
  ((9 <=? n)%nat && (n <=? 13)%nat) || (n =? 32)%nat.

Definition digit_of (c : ascii) : option Z :=
  let n := nat_of_ascii c in
  if ((48 <=? n)%nat && (n <=? 57)%nat)%bool
  then Some (Z.of_nat n - 48) else None.

Fixpoint lstrip (s : string) : string :=
  match s with
  | String c s' => if is_space c then lstrip s' else s
  | EmptyString => EmptyString
  end.

Fixpoint all_space (s : string) : bool :=
  match s with
  | String c s' => is_space c && all_space s'
  | EmptyString => true
  end.

(** Digits of a decimal literal, after the first digit has been read.
    [acc] is the value read so far; [after_us] tells that the previous
    character was an underscore, which must be followed by a digit.  The
    literal ends at the end of the string or at trailing blanks. *)
Fixpoint digits (acc : Z) (after_us : bool) (s : string) : option Z :=
  match s with
  | EmptyString => if after_us then None else Some acc
  | String c s' =>
      match digit_of c with
      | Some d => digits (10 * acc + d) false s'
      | None =>
          if after_us then None
          else if Ascii.eqb c "_" then digits acc true s'
          else if all_space s then Some acc
          else None
      end
  end.

Definition unsigned (s : string) : option Z :=
  match s with
  | String c s' =>
      match digit_of c with
      | Some d => digits d false s'
      | None => None
      end
  | EmptyString => None
  end.

(** [int(s)] for a string, base 10. *)
Definition of_str (s : string) : result Z :=
  let r :=
    match lstrip s with
    | String "-" s' => Z.opp <$> unsigned s'
    | String "+" s' => unsigned s'
    | s' => unsigned s'
    end in
  match r with
  | Some z => Ok z
  | None => Raise ValueError
  end.

(** [int(f)] for a float: truncation toward zero; infinities and NaN
    have no integer value. *)
Definition of_float (f : spec_float) : result Z :=
  match f with
  | S754_zero _ => Ok 0
  | S754_infinity _ => Raise OverflowError
  | S754_nan => Raise ValueError
  | S754_finite s m e =>
      let mag := Z.shiftl (Z.pos m) e in
      Ok (if s then - mag else mag)
  end.

End PyInt.

Definition py_int (v : pyval) : result Z :=
  match v with
  | PNone => Raise TypeError
  | PBool b => Ok (if b then 1 else 0)
  | PInt z => Ok z
  | PFloat f => PyInt.of_float f
  | PStr s => PyInt.of_str s
  end.


(** ** [str(x)], [x in list], [needle in text] *)

Section Radar.

(** [repr] of a float, as the interpreter prints it. *)
Variable float_repr : spec_float -> string.

Definition py_str (v : pyval) : string :=
  match v with
  | PNone => "None"
  | PBool true => "True"
  | PBool false => "False"
  | PInt z => pretty z
  | PFloat f => float_repr f
  | PStr s => s
  end.

(** [v == s] for a string [s]: only an equal string is equal to it. *)
Definition py_eq_str (v : pyval) (s : string) : bool :=
  match v with
  | PStr t => String.eqb t s
  | _ => false
  end.

(** [v in l] for a list [l] of strings. *)
Definition py_in (v : pyval) (l : list string) : bool :=
  existsb (py_eq_str v) l.

(** [needle in hay] for two strings: [needle] occurs in [hay]. *)
Fixpoint str_in (needle hay : string) : bool :=
  String.prefix needle hay
  || match hay with
     | String _ hay' => str_in needle hay'
     | EmptyString => false
     end.

(** [d.get(k, dflt)] *)
Definition dict_get (d : gmap string pyval) (k : string) (dflt : pyval) : pyval :=
  default dflt (d !! k).

(** ** The processor *)

Record CiscoSignalProcessor : Type := {
  RSSI_THRESHOLD_IMMEDIATE : Z;
  RSSI_THRESHOLD_NEAR : Z;
  RSSI_THRESHOLD_FAR : Z;
  WATCH_LIST : list string
}.

Definition __init__ : CiscoSignalProcessor := {|
  RSSI_THRESHOLD_IMMEDIATE := -45;
  RSSI_THRESHOLD_NEAR := -65;
  RSSI_THRESHOLD_FAR := -75;
  WATCH_LIST := ["00:11:22:33:44:55"; "AA:BB:CC:DD:EE:FF"]
|}.

Definition _calculate_proximity (self : CiscoSignalProcessor) (rssi : Z) : string :=
  if (rssi >=? RSSI_THRESHOLD_IMMEDIATE self)%Z then "IMMEDIATE (< 2m)"
  else if (rssi >=? RSSI_THRESHOLD_NEAR self)%Z then "NEAR (2m - 10m)"
  else if (rssi >=? RSSI_THRESHOLD_FAR self)%Z then "FAR (> 10m)"
  else "NOISE (Weak signal - Ignore)".

(** The four proximity categories and the text [_calculate_proximity]
    returns for each. *)
Inductive ProximityCategory : Type :=
| Immediate
| Near
| Far
| Noise.

Definition label (c : ProximityCategory) : string :=
  match c with
  | Immediate => "IMMEDIATE (< 2m)"
  | Near => "NEAR (2m - 10m)"
  | Far => "FAR (> 10m)"
  | Noise => "NOISE (Weak signal - Ignore)"
  end.

(** Noise < Far < Near < Immediate *)
Definition rank (c : ProximityCategory) : nat :=
  match c with
  | Noise => 0
  | Far => 1
  | Near => 2
  | Immediate => 3
  end.

(** ** Log records and the exits of [_trigger_events] *)

Inductive log_record : Type :=
| LogWarning (msg : string)        (* logging.warning(msg) *)
| LogInfo (msg : string)           (* logging.info(msg) *)
| LogError (e : py_exn).           (* logging.error(f"Packet parsing error: {e}") *)

Inductive Action : Type :=
| Suppressed                       (* line 59: return, weak signal *)
| Alert (msg : string)             (* line 66: logging.warning *)
| Activity (msg : string)          (* line 71: logging.info *)
| NoAction.                        (* line 76: pass *)

Definition emit (a : Action) : list log_record :=
  match a with
  | Suppressed => []
  | Alert msg => [LogWarning msg]
  | Activity msg => [LogInfo msg]
  | NoAction => []
  end.

(** Line 62, the f-string shared by both log lines. *)
Definition log_msg (mac : pyval) (rssi : Z) (distance : string) (ap_mac : pyval) : string :=
  "Device: " +:+ py_str mac +:+ " | Signal: " +:+ pretty rssi
  +:+ "dBm | Status: " +:+ distance +:+ " | AP: " +:+ py_str ap_mac.

Definition _trigger_events (self : CiscoSignalProcessor)
    (mac : pyval) (rssi : Z) (distance : string) (ap_mac ssid : pyval) : Action :=
  if str_in "NOISE" distance then Suppressed
  else
    let log_msg := log_msg mac rssi distance ap_mac in
    if py_in mac (WATCH_LIST self) then
      Alert (" TARGET DETECTED! " +:+ log_msg)
    else if str_in "IMMEDIATE" distance then
      Activity (" Active User: " +:+ log_msg +:+ " | Probing: " +:+ py_str ssid)
    else NoAction.

(** ** [analyze_packet] *)

(** The body of the [try] block, lines 25-35. *)
Definition try_block (self : CiscoSignalProcessor)
    (data_packet : gmap string pyval) : result Action :=
  let mac_address := dict_get data_packet "deviceMac" PNone in
  rssi ← py_int (dict_get data_packet "rssi" (PInt (-100)));
  let detecting_ap := dict_get data_packet "apMac" PNone in
  let ssid_probed := dict_get data_packet "ssid" (PStr "N/A") in
  let distance_category := _calculate_proximity self rssi in
  Ok (_trigger_events self mac_address rssi distance_category
        detecting_ap ssid_probed).

(** The whole method: what it logs.  An exception of the block is caught by
    [except Exception] and logged; the method returns in both cases. *)
Definition analyze_packet (self : CiscoSignalProcessor)
    (data_packet : gmap string pyval) : list log_record :=
  match try_block self data_packet with
  | Ok a => emit a
  | Raise e => [LogError e]
  end.

(** The calls of line 104 for the packets the loop draws, in order. *)
Definition feed (self : CiscoSignalProcessor)
    (packets : list (gmap string pyval)) : list log_record :=
  flat_map (analyze_packet self) packets.

(** The three packets of [mock_data]. *)
Definition mock_data : list (gmap string pyval) := [
  {[ "deviceMac" := PStr "11:22:33:44:55:66"; "rssi" := PInt (-85);
     "apMac" := PStr "AP_Lobby_01"; "ssid" := PStr "FreeWiFi" ]};
  {[ "deviceMac" := PStr "AA:BB:CC:DD:EE:FF"; "rssi" := PInt (-60);
     "apMac" := PStr "AP_Lobby_01"; "ssid" := PStr "CorpNet" ]};
  {[ "deviceMac" := PStr "00:11:22:33:44:55"; "rssi" := PInt (-40);
     "apMac" := PStr "AP_Library_Desk"; "ssid" := PStr "Library_Guest" ]}
].

(** ** The driver, [mock_cisco_data_stream] *)

(** The loop of lines 96-105 never ends; an uncaught exception is the only
    way out.  Its random numbers are taken from a stream of naturals:
    [random.choice] and [random.randint] each use the next one, reduced to
    the range they draw from.  [time.sleep] is left out. *)
Inductive driver_exn : Type :=
| IndexError                       (* random.choice of an empty list *)
| KeyError                         (* packet['rssi'] of a dict without it *)
| Uncaught (e : py_exn).           (* raised by the addition *)

Inductive outcome (A : Type) : Type :=
| Done (a : A)
| Crash (e : driver_exn).

#[global] Arguments Done {A} a.
#[global] Arguments Crash {A} e.

(** [random.randint(a, b)]: [a] plus a draw below [b - a + 1]. *)
Definition randint (a b : Z) (draw : nat) : Z :=
  a + Z.of_nat (draw mod Z.to_nat (b - a + 1)).

(** [float(j)] for an integer: the nearest double, or [OverflowError]. *)
Definition float_of_int (j : Z) : result spec_float :=
  match binary_normalize 53 1024 j 0 false with
  | S754_infinity _ => Raise OverflowError
  | g => Ok g
  end.

(** [v + j] for an integer [j]. *)
Definition py_add_int (v : pyval) (j : Z) : result pyval :=
  match v with
  | PNone => Raise TypeError
  | PStr _ => Raise TypeError
  | PBool b => Ok (PInt ((if b then 1 else 0) + j))
  | PInt z => Ok (PInt (z + j))
  | PFloat f => g ← float_of_int j; Ok (PFloat (SFadd 53 1024 f g))
  end.

(** One turn of the loop, lines 97-104, on the current [mock_data] and the
    two draws of the turn.  The chosen dict is the one in the list, so the
    jitter added to its [rssi] stays in [mock_data]. *)
Definition loop_body (self : CiscoSignalProcessor)
    (mock_data : list (gmap string pyval)) (draw : nat * nat)
    : outcome (list (gmap string pyval) * list log_record) :=
  let i := (fst draw mod length mock_data)%nat in
  match mock_data !! i with
  | None => Crash IndexError
  | Some packet =>
      match packet !! "rssi" with
      | None => Crash KeyError
      | Some old =>
          match py_add_int old (randint (-3) 3 (snd draw)) with
          | Raise e => Crash (Uncaught e)
          | Ok new =>
              let packet := <["rssi" := new]> packet in
              Done (<[i := packet]> mock_data, analyze_packet self packet)
          end
      end
  end.

(** The turns of the loop for a finite run of draws: what was logged, and
    the [mock_data] reached or the exception that ended the loop. *)
Fixpoint loop (self : CiscoSignalProcessor)
    (mock_data : list (gmap string pyval)) (draws : list (nat * nat))
    : list log_record * outcome (list (gmap string pyval)) :=
  match draws with
  | [] => ([], Done mock_data)
  | draw :: draws =>
      match loop_body self mock_data draw with
      | Crash e => ([], Crash e)
      | Done (mock_data, records) =>
          let (rest, final) := loop self mock_data draws in
          ((records ++ rest)%list, final)
      end
  end.

Record run : Type := {
  stdout : list string;
  log : list log_record;
  final : outcome (list (gmap string pyval))
}.

Definition mock_cisco_data_stream (draws : list (nat * nat)) : run :=
  let processor := __init__ in
  let (records, final) := loop processor mock_data draws in
  {| stdout := ["--- Cisco Wireless Signal Monitor Started ---"];
     log := records;
     final := final |}.

(** The jitter that a run of draws adds, in total, to the packet at index
    [i] of a list of [n] packets: the sum of the draws of the turns that
    chose it.  Used to state where the readings end up. *)
Fixpoint jitter_sum (i n : nat) (draws : list (nat * nat)) : Z :=
  match draws with
  | [] => 0
  | draw :: draws =>
      (if (fst draw mod n =? i)%nat then randint (-3) 3 (snd draw) else 0)
      + jitter_sum i n draws
  end.

(** * Properties *)

(** ** The model of [int] on sample inputs *)

Example py_int_str_neg : py_int (PStr "-85") = Ok (-85).
Proof. reflexivity. Qed.

Example py_int_str_blanks : py_int (PStr "  +7_0 ") = Ok 70.
Proof. reflexivity. Qed.

Example py_int_str_bad : py_int (PStr "abc") = Raise ValueError.
Proof. reflexivity. Qed.

Example py_int_str_frac : py_int (PStr "-60.5") = Raise ValueError.
Proof. reflexivity. Qed.

Example py_int_str_empty : py_int (PStr "") = Raise ValueError.
Proof. reflexivity. Qed.

Example py_int_str_underscores : py_int (PStr "1__0") = Raise ValueError.
Proof. reflexivity. Qed.

Example py_int_str_sign_blank : py_int (PStr "- 5") = Raise ValueError.
Proof. reflexivity. Qed.

Example py_int_str_zeros : py_int (PStr "007") = Ok 7.
Proof. reflexivity. Qed.

Example py_int_none : py_int PNone = Raise TypeError.
Proof. reflexivity. Qed.

Example py_int_inf : py_int (PFloat (S754_infinity false)) = Raise OverflowError.
Proof. reflexivity. Qed.

(** -60.5 is -(121 * 2^-1); [int] truncates it to -60. *)
Example py_int_float : py_int (PFloat (S754_finite true 121 (-1))) = Ok (-60).
Proof. reflexivity. Qed.

Example py_int_bool : py_int (PBool true) = Ok 1.
Proof. reflexivity. Qed.

(** ** The classifier *)

Lemma label_inj (c c' : ProximityCategory) : label c = label c' -> c = c'.
Proof. destruct c, c'; simpl; intros H; first [reflexivity | discriminate H]. Qed.

(** The chain of comparisons, read off as a case distinction on [rssi]. *)
Lemma _calculate_proximity_cases (self : CiscoSignalProcessor) (rssi : Z) :
  (RSSI_THRESHOLD_IMMEDIATE self <= rssi
   /\ _calculate_proximity self rssi = label Immediate)
  \/ (rssi < RSSI_THRESHOLD_IMMEDIATE self /\ RSSI_THRESHOLD_NEAR self <= rssi
      /\ _calculate_proximity self rssi = label Near)
  \/ (rssi < RSSI_THRESHOLD_IMMEDIATE self /\ rssi < RSSI_THRESHOLD_NEAR self
      /\ RSSI_THRESHOLD_FAR self <= rssi
      /\ _calculate_proximity self rssi = label Far)
  \/ (rssi < RSSI_THRESHOLD_IMMEDIATE self /\ rssi < RSSI_THRESHOLD_NEAR self
      /\ rssi < RSSI_THRESHOLD_FAR self
      /\ _calculate_proximity self rssi = label Noise).
Proof.
  unfold _calculate_proximity. rewrite !Z.geb_leb.
  destruct (Z.leb_spec (RSSI_THRESHOLD_IMMEDIATE self) rssi) as [Hi | Hi];
    [left; split; [exact Hi | reflexivity] | right].
  destruct (Z.leb_spec (RSSI_THRESHOLD_NEAR self) rssi) as [Hn | Hn];
    [left; repeat split; assumption | right].
  destruct (Z.leb_spec (RSSI_THRESHOLD_FAR self) rssi) as [Hf | Hf];
    [left | right]; repeat split; assumption.
Qed.

(** C1. For every integer [s] the classifier with the default thresholds
    returns the text of exactly one category, chosen by the chain
    [s >= -45] (Immediate), else [s >= -65] (Near), else [s >= -75] (Far),
    else Noise; each category is returned on exactly one of the ranges
    [-45 <= s], [-65 <= s < -45], [-75 <= s < -65], [s < -75], which cover
    the integers without overlap. *)
Theorem classify_partition (s : Z) :
  exists c : ProximityCategory,
    _calculate_proximity __init__ s = label c
    /\ (forall c', _calculate_proximity __init__ s = label c' -> c' = c)
    /\ (c = Immediate <-> -45 <= s)
    /\ (c = Near <-> -65 <= s < -45)
    /\ (c = Far <-> -75 <= s < -65)
    /\ (c = Noise <-> s < -75).
Proof.
  destruct (_calculate_proximity_cases __init__ s)
    as [[Hi E] | [(Hi & Hn & E) | [(Hi & Hn & Hf & E) | (Hi & Hn & Hf & E)]]];
    simpl in Hi; try simpl in Hn; try simpl in Hf;
    [exists Immediate | exists Near | exists Far | exists Noise];
    (split; [exact E |]);
    (split; [intros c' E'; rewrite E in E'; symmetry; exact (label_inj _ _ E') |]);
    repeat split; intros; first [reflexivity | discriminate | lia].
Qed.

(** C2. The classifier at both sides of each threshold. *)
Theorem classify_boundaries :
  _calculate_proximity __init__ (-45) = label Immediate
  /\ _calculate_proximity __init__ (-46) = label Near
  /\ _calculate_proximity __init__ (-65) = label Near
  /\ _calculate_proximity __init__ (-66) = label Far
  /\ _calculate_proximity __init__ (-75) = label Far
  /\ _calculate_proximity __init__ (-76) = label Noise.
Proof. repeat split; reflexivity. Qed.

(** C9. The classifier is monotone: a signal at least as strong gets a
    category at least as high in the order Noise < Far < Near < Immediate.
    This holds for the default thresholds and for any other choice. *)
Theorem classify_monotone (self : CiscoSignalProcessor) (s1 s2 : Z) :
  s1 <= s2 ->
  exists c1 c2 : ProximityCategory,
    _calculate_proximity self s1 = label c1
    /\ _calculate_proximity self s2 = label c2
    /\ (rank c1 <= rank c2)%nat.
Proof.
  intros Hle.
  destruct (_calculate_proximity_cases self s1)
    as [[Hi1 E1] | [(Hi1 & Hn1 & E1) | [(Hi1 & Hn1 & Hf1 & E1) | (Hi1 & Hn1 & Hf1 & E1)]]];
  destruct (_calculate_proximity_cases self s2)
    as [[Hi2 E2] | [(Hi2 & Hn2 & E2) | [(Hi2 & Hn2 & Hf2 & E2) | (Hi2 & Hn2 & Hf2 & E2)]]];
  try lia;
  eexists _, _; (split; [exact E1 | split; [exact E2 | simpl; lia]]).
Qed.

(** ** The trigger rules *)

Lemma append_assoc (a b c : string) : (a +:+ b) +:+ c = a +:+ b +:+ c.
Proof.
  induction a as [| x a IH]; [reflexivity |].
  change (String x ((a +:+ b) +:+ c) = String x (a +:+ b +:+ c)).
  rewrite IH. reflexivity.
Qed.

Lemma str_in_NOISE (c : ProximityCategory) :
  str_in "NOISE" (label c) = match c with Noise => true | _ => false end.
Proof. destruct c; reflexivity. Qed.

Lemma str_in_IMMEDIATE (c : ProximityCategory) :
  str_in "IMMEDIATE" (label c) = match c with Immediate => true | _ => false end.
Proof. destruct c; reflexivity. Qed.

(** Membership in a list of strings is equality with one of them; a value
    that is not a string is in no such list. *)
Lemma py_in_spec (v : pyval) (l : list string) :
  py_in v l = true <-> exists s, v = PStr s /\ In s l.
Proof.
  unfold py_in. rewrite existsb_exists. split.
  - intros (s & Hs & Heq). destruct v; simpl in Heq; try discriminate.
    apply String.eqb_eq in Heq. subst. eauto.
  - intros (s & -> & Hs). exists s. split; [exact Hs | apply String.eqb_refl].
Qed.

Lemma py_in_None (l : list string) : py_in PNone l = false.
Proof. induction l as [| s l IH]; [reflexivity | exact IH]. Qed.

(** [_trigger_events] on the text of a category, branch by branch. *)
Lemma _trigger_events_label (self : CiscoSignalProcessor)
    (mac : pyval) (rssi : Z) (c : ProximityCategory) (ap_mac ssid : pyval) :
  _trigger_events self mac rssi (label c) ap_mac ssid
  = match c with
    | Noise => Suppressed
    | _ =>
        if py_in mac (WATCH_LIST self) then
          Alert (" TARGET DETECTED! Device: " +:+ py_str mac
                 +:+ " | Signal: " +:+ pretty rssi
                 +:+ "dBm | Status: " +:+ label c
                 +:+ " | AP: " +:+ py_str ap_mac)
        else
          match c with
          | Immediate =>
              Activity (" Active User: Device: " +:+ py_str mac
                        +:+ " | Signal: " +:+ pretty rssi
                        +:+ "dBm | Status: " +:+ label c
                        +:+ " | AP: " +:+ py_str ap_mac
                        +:+ " | Probing: " +:+ py_str ssid)
          | _ => NoAction
          end
    end.
Proof.
  unfold _trigger_events. rewrite str_in_NOISE, str_in_IMMEDIATE.
  destruct c; try reflexivity.
  destruct (py_in mac (WATCH_LIST self)); [reflexivity |].
  unfold log_msg. f_equal. rewrite !append_assoc. reflexivity.
Qed.

(** C3. A Noise reading is suppressed whatever the device: nothing is
    logged, whether or not the device is on the watch list.  In particular
    the watch-listed device 00:11:22:33:44:55 heard at -90 dBm is suppressed. *)
Theorem noise_suppressed (self : CiscoSignalProcessor)
    (mac : pyval) (rssi : Z) (ap_mac ssid : pyval) :
  _trigger_events self mac rssi (label Noise) ap_mac ssid = Suppressed
  /\ emit (_trigger_events self mac rssi (label Noise) ap_mac ssid) = []
  /\ py_in (PStr "00:11:22:33:44:55") (WATCH_LIST __init__) = true
  /\ try_block __init__
       {[ "deviceMac" := PStr "00:11:22:33:44:55"; "rssi" := PInt (-90);
          "apMac" := PStr "AP_Lobby_01"; "ssid" := PStr "CorpNet" ]}
     = Ok Suppressed.
Proof.
  assert (E : _trigger_events self mac rssi (label Noise) ap_mac ssid = Suppressed)
    by reflexivity.
  rewrite E. repeat split; vm_compute; reflexivity.
Qed.

(** C4. A reading that is not Noise, of a device on the watch list, raises
    an alert whose text carries the device id, the signal strength, the
    category and the detecting node.  The watch list is looked up before
    the category is tested for Immediate, so this also holds for an
    Immediate reading. *)
Theorem watch_list_alert (self : CiscoSignalProcessor)
    (mac : pyval) (rssi : Z) (c : ProximityCategory) (ap_mac ssid : pyval) :
  c <> Noise ->
  py_in mac (WATCH_LIST self) = true ->
  _trigger_events self mac rssi (label c) ap_mac ssid
  = Alert (" TARGET DETECTED! Device: " +:+ py_str mac
           +:+ " | Signal: " +:+ pretty rssi
           +:+ "dBm | Status: " +:+ label c
           +:+ " | AP: " +:+ py_str ap_mac).
Proof.
  intros Hc Hin. rewrite _trigger_events_label, Hin.
  destruct c; [reflexivity | reflexivity | reflexivity | contradiction Hc; reflexivity].
Qed.

(** C5. An Immediate reading of a device that is not on the watch list is
    noted as activity; the note carries the device id, the signal strength,
    the category, the detecting node and the probed network name. *)
Theorem immediate_activity (self : CiscoSignalProcessor)
    (mac : pyval) (rssi : Z) (ap_mac ssid : pyval) :
  py_in mac (WATCH_LIST self) = false ->
  _trigger_events self mac rssi (label Immediate) ap_mac ssid
  = Activity (" Active User: Device: " +:+ py_str mac
              +:+ " | Signal: " +:+ pretty rssi
              +:+ "dBm | Status: " +:+ label Immediate
              +:+ " | AP: " +:+ py_str ap_mac
              +:+ " | Probing: " +:+ py_str ssid).
Proof.
  intros Hout. rewrite _trigger_events_label, Hout. reflexivity.
Qed.

(** C8. A Near or Far reading of a device that is not on the watch list
    takes the last branch: no alert and no activity note. *)
Theorem near_far_no_action (self : CiscoSignalProcessor)
    (mac : pyval) (rssi : Z) (c : ProximityCategory) (ap_mac ssid : pyval) :
  py_in mac (WATCH_LIST self) = false ->
  c = Near \/ c = Far ->
  _trigger_events self mac rssi (label c) ap_mac ssid = NoAction
  /\ emit (_trigger_events self mac rssi (label c) ap_mac ssid) = [].
Proof.
  intros Hout Hc.
  assert (E : _trigger_events self mac rssi (label c) ap_mac ssid = NoAction).
  { rewrite _trigger_events_label, Hout.
    destruct Hc as [-> | ->]; reflexivity. }
  rewrite E. split; reflexivity.
Qed.

(** ** Packets *)

Lemma dict_get_absent (d : gmap string pyval) (k : string) (dflt : pyval) :
  d !! k = None -> dict_get d k dflt = dflt.
Proof. unfold dict_get. intros ->. reflexivity. Qed.

Lemma dict_get_present (d : gmap string pyval) (k : string) (dflt v : pyval) :
  d !! k = Some v -> dict_get d k dflt = v.
Proof. unfold dict_get. intros ->. reflexivity. Qed.

(** When the coercion of [rssi] succeeds the block runs to its end. *)
Lemma try_block_ok (self : CiscoSignalProcessor) (p : gmap string pyval) (s : Z) :
  py_int (dict_get p "rssi" (PInt (-100))) = Ok s ->
  try_block self p
  = Ok (_trigger_events self (dict_get p "deviceMac" PNone) s
          (_calculate_proximity self s)
          (dict_get p "apMac" PNone) (dict_get p "ssid" (PStr "N/A"))).
Proof. unfold try_block. intros ->. reflexivity. Qed.

(** The block raises exactly what the coercion of [rssi] raises. *)
Lemma try_block_raise (self : CiscoSignalProcessor) (p : gmap string pyval) (e : py_exn) :
  try_block self p = Raise e
  <-> py_int (dict_get p "rssi" (PInt (-100))) = Raise e.
Proof.
  unfold try_block, mbind, result_bind.
  destruct (py_int (dict_get p "rssi" (PInt (-100)))) as [s | e'];
    split; intros H; first [discriminate H | injection H as ->; reflexivity].
Qed.

(** The values [int] rejects: [None], a string that is not a decimal
    literal, a NaN and the infinities. *)
Lemma py_int_raises (v : pyval) :
  raises (py_int v)
  <-> v = PNone
      \/ (exists s, v = PStr s /\ PyInt.of_str s = Raise ValueError)
      \/ v = PFloat S754_nan
      \/ (exists b, v = PFloat (S754_infinity b)).
Proof.
  split.
  - intros [e He]. destruct v as [| b | z | f | s]; simpl in He.
    + left. reflexivity.
    + discriminate He.
    + discriminate He.
    + destruct f as [b | b | | b m x]; simpl in He; try discriminate He.
      * right; right; right. exists b. reflexivity.
      * right; right; left. reflexivity.
    + right; left. exists s. split; [reflexivity |].
      unfold PyInt.of_str in *.
      destruct (match PyInt.lstrip s with
                | String "-" s' => Z.opp <$> PyInt.unsigned s'
                | String "+" s' => PyInt.unsigned s'
                | s' => PyInt.unsigned s'
                end); [discriminate He | reflexivity].
  - intros [-> | [(s & -> & Hs) | [-> | [b ->]]]]; simpl.
    + exists TypeError. reflexivity.
    + exists ValueError. exact Hs.
    + exists ValueError. reflexivity.
    + exists OverflowError. reflexivity.
Qed.

(** C6. A packet without an [rssi] field gets the signal strength -100,
    which the classifier calls Noise, so the packet is suppressed and
    nothing is logged. *)
Theorem missing_rssi_suppressed (p : gmap string pyval) :
  p !! "rssi" = None ->
  py_int (dict_get p "rssi" (PInt (-100))) = Ok (-100)
  /\ _calculate_proximity __init__ (-100) = label Noise
  /\ try_block __init__ p = Ok Suppressed
  /\ analyze_packet __init__ p = [].
Proof.
  intros Habs.
  assert (Hs : py_int (dict_get p "rssi" (PInt (-100))) = Ok (-100)).
  { rewrite (dict_get_absent _ _ _ Habs). reflexivity. }
  assert (Hb : try_block __init__ p = Ok Suppressed).
  { rewrite (try_block_ok _ _ _ Hs). reflexivity. }
  repeat split; [exact Hs | exact Hb |].
  unfold analyze_packet. rewrite Hb. reflexivity.
Qed.

(** C7. The [try] block fails exactly when the integer coercion of the
    [rssi] field fails, which needs the field to be present: an absent
    field is defaulted, and [deviceMac], [apMac] and [ssid] are taken as
    they are, so that setting or removing any of them changes nothing to
    the failure.  The exception is caught in [analyze_packet]: one error
    record is logged, nothing else is, and the packets that follow are
    processed as usual. *)
Theorem malformed_observation (self : CiscoSignalProcessor) (p : gmap string pyval) :
  (forall e, try_block self p = Raise e
             <-> py_int (dict_get p "rssi" (PInt (-100))) = Raise e)
  /\ (forall e, try_block self p = Raise e
                <-> exists v, p !! "rssi" = Some v /\ py_int v = Raise e)
  /\ (forall k v e, k <> "rssi" ->
        (try_block self (<[k := v]> p) = Raise e <-> try_block self p = Raise e)
        /\ (try_block self (delete k p) = Raise e <-> try_block self p = Raise e))
  /\ (forall e, try_block self p = Raise e -> analyze_packet self p = [LogError e])
  /\ (forall a, try_block self p = Ok a -> analyze_packet self p = emit a)
  /\ (forall before after,
        feed self (before ++ p :: after)%list
        = (feed self before ++ analyze_packet self p ++ feed self after)%list).
Proof.
  split; [intros e; apply try_block_raise |].
  split.
  { intros e. rewrite try_block_raise. unfold dict_get.
    destruct (p !! "rssi") as [v |] eqn:Hv; simpl.
    - split; [intros H; exists v; split; [reflexivity | exact H] |].
      intros (v' & Hv' & H). injection Hv' as <-. exact H.
    - split; [intros H; discriminate H |].
      intros (v' & Hv' & _). discriminate Hv'. }
  split.
  { intros k v e Hk. rewrite !try_block_raise. unfold dict_get.
    rewrite (lookup_insert_ne p k "rssi" v Hk), (lookup_delete_ne p k "rssi" Hk).
    split; reflexivity. }
  split; [intros e H; unfold analyze_packet; rewrite H; reflexivity |].
  split; [intros a H; unfold analyze_packet; rewrite H; reflexivity |].
  intros before after. unfold feed.
  rewrite flat_map_app. reflexivity.
Qed.

(** The two ways the coercion of [rssi] succeeds. *)
Lemma rssi_coerced (p : gmap string pyval) (s : Z) :
  (p !! "rssi" = None /\ s = -100)
  \/ (exists v, p !! "rssi" = Some v /\ py_int v = Ok s) ->
  py_int (dict_get p "rssi" (PInt (-100))) = Ok s.
Proof.
  intros [[Habs ->] | (v & Hv & Hs)].
  - rewrite (dict_get_absent _ _ _ Habs). reflexivity.
  - rewrite (dict_get_present _ _ _ _ Hv). exact Hs.
Qed.

(** C10, as the code has it.  A packet without a [deviceMac] field whose
    [rssi] is absent (then [s] is -100) or coerces to the integer [s] does
    not fail: the device id is [None], which is on no watch list, and the
    outcome follows from the category of [s] alone: Suppressed for Noise, an
    activity note for Immediate, nothing for Near and Far; never an alert. *)
Theorem absent_mac_by_category (self : CiscoSignalProcessor)
    (p : gmap string pyval) (s : Z) :
  p !! "deviceMac" = None ->
  (p !! "rssi" = None /\ s = -100)
  \/ (exists v, p !! "rssi" = Some v /\ py_int v = Ok s) ->
  dict_get p "deviceMac" PNone = PNone
  /\ py_in PNone (WATCH_LIST self) = false
  /\ exists c : ProximityCategory,
       _calculate_proximity self s = label c
       /\ try_block self p
          = Ok match c with
               | Noise => Suppressed
               | Immediate =>
                   Activity (" Active User: Device: None"
                             +:+ " | Signal: " +:+ pretty s
                             +:+ "dBm | Status: " +:+ label Immediate
                             +:+ " | AP: " +:+ py_str (dict_get p "apMac" PNone)
                             +:+ " | Probing: "
                             +:+ py_str (dict_get p "ssid" (PStr "N/A")))
               | Near | Far => NoAction
               end
       /\ (forall msg, try_block self p <> Ok (Alert msg)).
Proof.
  intros Hmac Hs%rssi_coerced.
  split; [apply dict_get_absent; exact Hmac |].
  split; [apply py_in_None |].
  rewrite (try_block_ok _ _ _ Hs), (dict_get_absent _ _ _ Hmac).
  destruct (_calculate_proximity_cases self s)
    as [[_ E] | [(_ & _ & E) | [(_ & _ & _ & E) | (_ & _ & _ & E)]]];
    rewrite E, _trigger_events_label, ?py_in_None;
    [exists Immediate | exists Near | exists Far | exists Noise];
    (split; [reflexivity |]);
    (split; [reflexivity | intros msg H; discriminate H]).
Qed.

(** * Further properties *)

(** ** The classifier with other thresholds, and under jitter *)

(** With thresholds in the order FAR <= NEAR <= IMMEDIATE each category is
    returned on one interval, and the four intervals follow one another. *)
Theorem classify_ordered_thresholds (self : CiscoSignalProcessor) (s : Z) :
  RSSI_THRESHOLD_FAR self <= RSSI_THRESHOLD_NEAR self ->
  RSSI_THRESHOLD_NEAR self <= RSSI_THRESHOLD_IMMEDIATE self ->
  exists c : ProximityCategory,
    _calculate_proximity self s = label c
    /\ (c = Immediate <-> RSSI_THRESHOLD_IMMEDIATE self <= s)
    /\ (c = Near <-> RSSI_THRESHOLD_NEAR self <= s < RSSI_THRESHOLD_IMMEDIATE self)
    /\ (c = Far <-> RSSI_THRESHOLD_FAR self <= s < RSSI_THRESHOLD_NEAR self)
    /\ (c = Noise <-> s < RSSI_THRESHOLD_FAR self).
Proof.
  intros Hfn Hni.
  destruct (_calculate_proximity_cases self s)
    as [[Hi E] | [(Hi & Hn & E) | [(Hi & Hn & Hf & E) | (Hi & Hn & Hf & E)]]];
    [exists Immediate | exists Near | exists Far | exists Noise];
    (split; [exact E |]);
    repeat split; intros; first [reflexivity | discriminate | lia].
Qed.

(** Which categories the chain can return at all.  Immediate and Noise
    always can; Near only when its threshold is below the Immediate one; Far
    only when its threshold is below both others. *)
Theorem classify_reachable (self : CiscoSignalProcessor) :
  (exists s, _calculate_proximity self s = label Immediate)
  /\ (exists s, _calculate_proximity self s = label Noise)
  /\ ((exists s, _calculate_proximity self s = label Near)
      <-> RSSI_THRESHOLD_NEAR self < RSSI_THRESHOLD_IMMEDIATE self)
  /\ ((exists s, _calculate_proximity self s = label Far)
      <-> RSSI_THRESHOLD_FAR self < RSSI_THRESHOLD_NEAR self
          /\ RSSI_THRESHOLD_FAR self < RSSI_THRESHOLD_IMMEDIATE self).
Proof.
  assert (Hat : forall s c, _calculate_proximity self s = label c ->
    match c with
    | Immediate => RSSI_THRESHOLD_IMMEDIATE self <= s
    | Near => s < RSSI_THRESHOLD_IMMEDIATE self /\ RSSI_THRESHOLD_NEAR self <= s
    | Far => s < RSSI_THRESHOLD_IMMEDIATE self /\ s < RSSI_THRESHOLD_NEAR self
             /\ RSSI_THRESHOLD_FAR self <= s
    | Noise => s < RSSI_THRESHOLD_IMMEDIATE self /\ s < RSSI_THRESHOLD_NEAR self
               /\ s < RSSI_THRESHOLD_FAR self
    end).
  { intros s c Hc.
    destruct (_calculate_proximity_cases self s)
      as [[Hi E] | [(Hi & Hn & E) | [(Hi & Hn & Hf & E) | (Hi & Hn & Hf & E)]]];
      rewrite E in Hc; apply label_inj in Hc; subst c; repeat split; assumption. }
  assert (Hto : forall s c,
    match c with
    | Immediate => RSSI_THRESHOLD_IMMEDIATE self <= s
    | Near => s < RSSI_THRESHOLD_IMMEDIATE self /\ RSSI_THRESHOLD_NEAR self <= s
    | Far => s < RSSI_THRESHOLD_IMMEDIATE self /\ s < RSSI_THRESHOLD_NEAR self
             /\ RSSI_THRESHOLD_FAR self <= s
    | Noise => s < RSSI_THRESHOLD_IMMEDIATE self /\ s < RSSI_THRESHOLD_NEAR self
               /\ s < RSSI_THRESHOLD_FAR self
    end -> _calculate_proximity self s = label c).
  { intros s c Hc.
    destruct (_calculate_proximity_cases self s)
      as [[Hi E] | [(Hi & Hn & E) | [(Hi & Hn & Hf & E) | (Hi & Hn & Hf & E)]]];
      rewrite E; destruct c; first [reflexivity | exfalso; lia]. }
  split; [exists (RSSI_THRESHOLD_IMMEDIATE self); apply (Hto _ Immediate); lia |].
  split.
  { exists (Z.min (RSSI_THRESHOLD_IMMEDIATE self)
              (Z.min (RSSI_THRESHOLD_NEAR self) (RSSI_THRESHOLD_FAR self)) - 1).
    apply (Hto _ Noise). lia. }
  split; split.
  - intros [s Hs]. apply Hat in Hs. lia.
  - intros H. exists (RSSI_THRESHOLD_NEAR self). apply (Hto _ Near). lia.
  - intros [s Hs]. apply Hat in Hs. lia.
  - intros H. exists (RSSI_THRESHOLD_FAR self). apply (Hto _ Far). lia.
Qed.

(** The jitter of the driver is at most 3 dBm either way.  With the default
    thresholds two readings that close are in the same category or in
    neighbouring ones. *)
Theorem classify_jitter_neighbours (s1 s2 : Z) :
  -3 <= s2 - s1 <= 3 ->
  exists c1 c2 : ProximityCategory,
    _calculate_proximity __init__ s1 = label c1
    /\ _calculate_proximity __init__ s2 = label c2
    /\ (rank c1 <= rank c2 + 1)%nat
    /\ (rank c2 <= rank c1 + 1)%nat.
Proof.
  intros Hj.
  pose proof (eq_refl : RSSI_THRESHOLD_IMMEDIATE __init__ = -45) as Ti.
  pose proof (eq_refl : RSSI_THRESHOLD_NEAR __init__ = -65) as Tn.
  pose proof (eq_refl : RSSI_THRESHOLD_FAR __init__ = -75) as Tf.
  destruct (_calculate_proximity_cases __init__ s1)
    as [[Hi1 E1] | [(Hi1 & Hn1 & E1) | [(Hi1 & Hn1 & Hf1 & E1) | (Hi1 & Hn1 & Hf1 & E1)]]];
  destruct (_calculate_proximity_cases __init__ s2)
    as [[Hi2 E2] | [(Hi2 & Hn2 & E2) | [(Hi2 & Hn2 & Hf2 & E2)
                                        | (Hi2 & Hn2 & Hf2 & E2)]]];
  try lia;
  eexists _, _; (split; [exact E1 | split; [exact E2 | simpl; lia]]).
Qed.

(** ** The trigger rules on any status text *)

Lemma prefix_app (n h : string) :
  String.prefix n h = true <-> exists post, h = n +:+ post.
Proof.
  revert h. induction n as [| a n IH]; intros h.
  - split; [intros _; exists h; reflexivity | intros _; destruct h; reflexivity].
  - destruct h as [| b h]; simpl;
      [split; [discriminate | intros [post H]; discriminate H] |].
    destruct (Ascii.ascii_dec a b) as [-> | Hab].
    + rewrite IH. split; intros [post H]; exists post.
      * rewrite H. reflexivity.
      * change (String b h = String b (n +:+ post)) in H. congruence.
    + split; [discriminate |].
      intros [post H]. change (String b h = String a (n +:+ post)) in H.
      congruence.
Qed.

(** [needle in hay] holds exactly when [needle] occurs somewhere in [hay]. *)
Lemma str_in_occurs (n h : string) :
  str_in n h = true <-> exists pre post, h = pre +:+ n +:+ post.
Proof.
  induction h as [| b h IH].
  - change (str_in n "") with (String.prefix n "" || false).
    rewrite orb_false_r, prefix_app. split.
    + intros [post H]. exists "", post. exact H.
    + intros (pre & post & H). destruct pre as [| a pre]; [eauto |].
      discriminate H.
  - change (str_in n (String b h))
      with (String.prefix n (String b h) || str_in n h).
    rewrite orb_true_iff, prefix_app, IH. split.
    + intros [[post H] | (pre & post & H)].
      * exists "", post. exact H.
      * exists (String b pre), post. rewrite H. reflexivity.
    + intros (pre & post & H). destruct pre as [| a pre].
      * left. exists post. exact H.
      * right. exists pre, post.
        change (String b h = String a (pre +:+ n +:+ post)) in H. congruence.
Qed.

(** The weak-signal filter looks for the word NOISE anywhere in the status
    text: the event is suppressed exactly when the word occurs in it. *)
Theorem suppressed_iff_noise_occurs (self : CiscoSignalProcessor)
    (mac : pyval) (rssi : Z) (distance : string) (ap_mac ssid : pyval) :
  _trigger_events self mac rssi distance ap_mac ssid = Suppressed
  <-> exists pre post, distance = pre +:+ "NOISE" +:+ post.
Proof.
  rewrite <- str_in_occurs. unfold _trigger_events.
  destruct (str_in "NOISE" distance); [split; reflexivity |].
  destruct (py_in mac (WATCH_LIST self));
    [| destruct (str_in "IMMEDIATE" distance)]; split; discriminate.
Qed.

(** An alert is raised exactly when the status text does not contain NOISE
    and the device id is a string equal to an entry of the watch list; an id
    that is not a string, or differs from every entry, never alerts. *)
Theorem alert_iff_watch_listed (self : CiscoSignalProcessor)
    (mac : pyval) (rssi : Z) (distance : string) (ap_mac ssid : pyval) :
  (exists msg, _trigger_events self mac rssi distance ap_mac ssid = Alert msg)
  <-> str_in "NOISE" distance = false
      /\ exists s, mac = PStr s /\ In s (WATCH_LIST self).
Proof.
  rewrite <- py_in_spec. unfold _trigger_events.
  destruct (str_in "NOISE" distance).
  { split; [intros [msg H]; discriminate H | intros [H _]; discriminate H]. }
  destruct (py_in mac (WATCH_LIST self)).
  { split; [intros _; split; reflexivity | intros _; eexists; reflexivity]. }
  split; [| intros [_ H]; discriminate H].
  destruct (str_in "IMMEDIATE" distance); intros [msg H]; discriminate H.
Qed.

(** ** What one packet logs *)

Lemma analyze_packet_unfold (self : CiscoSignalProcessor) (p : gmap string pyval) :
  analyze_packet self p
  = match py_int (dict_get p "rssi" (PInt (-100))) with
    | Ok s =>
        emit (_trigger_events self (dict_get p "deviceMac" PNone) s
                (_calculate_proximity self s)
                (dict_get p "apMac" PNone) (dict_get p "ssid" (PStr "N/A")))
    | Raise e => [LogError e]
    end.
Proof.
  unfold analyze_packet, try_block, mbind, result_bind.
  destruct (py_int (dict_get p "rssi" (PInt (-100)))); reflexivity.
Qed.

(** The default processor on a packet whose signal strength is [s]. *)
Lemma analyze_packet_default (p : gmap string pyval) (s : Z) :
  py_int (dict_get p "rssi" (PInt (-100))) = Ok s ->
  analyze_packet __init__ p
  = if (s <? -75)%Z then []
    else if py_in (dict_get p "deviceMac" PNone) (WATCH_LIST __init__) then
      [LogWarning (" TARGET DETECTED! Device: "
                   +:+ py_str (dict_get p "deviceMac" PNone)
                   +:+ " | Signal: " +:+ pretty s
                   +:+ "dBm | Status: " +:+ _calculate_proximity __init__ s
                   +:+ " | AP: " +:+ py_str (dict_get p "apMac" PNone))]
    else if (-45 <=? s)%Z then
      [LogInfo (" Active User: Device: "
                +:+ py_str (dict_get p "deviceMac" PNone)
                +:+ " | Signal: " +:+ pretty s
                +:+ "dBm | Status: " +:+ _calculate_proximity __init__ s
                +:+ " | AP: " +:+ py_str (dict_get p "apMac" PNone)
                +:+ " | Probing: " +:+ py_str (dict_get p "ssid" (PStr "N/A")))]
    else [].
Proof.
  intros Hs. rewrite analyze_packet_unfold, Hs.
  pose proof (eq_refl : RSSI_THRESHOLD_IMMEDIATE __init__ = -45) as Ti.
  pose proof (eq_refl : RSSI_THRESHOLD_NEAR __init__ = -65) as Tn.
  pose proof (eq_refl : RSSI_THRESHOLD_FAR __init__ = -75) as Tf.
  destruct (_calculate_proximity_cases __init__ s)
    as [[Hi E] | [(Hi & Hn & E) | [(Hi & Hn & Hf & E) | (Hi & Hn & Hf & E)]]];
    rewrite E, _trigger_events_label;
    destruct (Z.ltb_spec s (-75)); try lia;
    destruct (Z.leb_spec (-45) s); try lia;
    destruct (py_in (dict_get p "deviceMac" PNone) (WATCH_LIST __init__));
    reflexivity.
Qed.

Lemma dict_get_str (p : gmap string pyval) (k m : string) :
  dict_get p k PNone = PStr m <-> p !! k = Some (PStr m).
Proof.
  unfold dict_get. destruct (p !! k) as [v |]; simpl.
  - split; [intros -> | intros [= ->]]; reflexivity.
  - split; discriminate.
Qed.

(** The default processor raises an alert for a packet exactly when its
    signal strength is at least -75 and its [deviceMac] is a string of the
    watch list. *)
Theorem packet_alert_iff (p : gmap string pyval) :
  (exists msg, analyze_packet __init__ p = [LogWarning msg])
  <-> exists s m,
        py_int (dict_get p "rssi" (PInt (-100))) = Ok s
        /\ -75 <= s
        /\ p !! "deviceMac" = Some (PStr m)
        /\ In m (WATCH_LIST __init__).
Proof.
  split.
  - intros [msg H].
    destruct (py_int (dict_get p "rssi" (PInt (-100)))) as [s | e] eqn:Hs.
    + rewrite (analyze_packet_default p s Hs) in H.
      destruct (Z.ltb_spec s (-75)); [discriminate H |].
      destruct (py_in (dict_get p "deviceMac" PNone) (WATCH_LIST __init__)) eqn:Hin.
      * apply py_in_spec in Hin as (m & Hm & HIn). apply dict_get_str in Hm.
        exists s, m. repeat split; [lia | exact Hm | exact HIn].
      * destruct (-45 <=? s)%Z; discriminate H.
    + rewrite analyze_packet_unfold, Hs in H. discriminate H.
  - intros (s & m & Hs & Hge & Hm & HIn).
    rewrite (analyze_packet_default p s Hs).
    destruct (Z.ltb_spec s (-75)); [lia |].
    assert (Hin : py_in (dict_get p "deviceMac" PNone) (WATCH_LIST __init__) = true).
    { apply py_in_spec. exists m. split; [apply dict_get_str; exact Hm | exact HIn]. }
    rewrite Hin. eexists. reflexivity.
Qed.

(** It notes activity exactly when the signal strength is at least -45 and
    the device is not on the watch list. *)
Theorem packet_activity_iff (p : gmap string pyval) :
  (exists msg, analyze_packet __init__ p = [LogInfo msg])
  <-> exists s,
        py_int (dict_get p "rssi" (PInt (-100))) = Ok s
        /\ -45 <= s
        /\ py_in (dict_get p "deviceMac" PNone) (WATCH_LIST __init__) = false.
Proof.
  split.
  - intros [msg H].
    destruct (py_int (dict_get p "rssi" (PInt (-100)))) as [s | e] eqn:Hs.
    + rewrite (analyze_packet_default p s Hs) in H.
      destruct (Z.ltb_spec s (-75)); [discriminate H |].
      destruct (py_in (dict_get p "deviceMac" PNone) (WATCH_LIST __init__));
        [discriminate H |].
      destruct (Z.leb_spec (-45) s); [| discriminate H].
      exists s. repeat split; [lia].
    + rewrite analyze_packet_unfold, Hs in H. discriminate H.
  - intros (s & Hs & Hge & Hout).
    rewrite (analyze_packet_default p s Hs), Hout.
    destruct (Z.ltb_spec s (-75)); [lia |].
    destruct (Z.leb_spec (-45) s); [| lia].
    eexists. reflexivity.
Qed.

(** It logs nothing exactly when the coercion of [rssi] succeeds and the
    signal is below -75, or below -45 from a device off the watch list. *)
Theorem packet_silent_iff (p : gmap string pyval) :
  analyze_packet __init__ p = []
  <-> exists s,
        py_int (dict_get p "rssi" (PInt (-100))) = Ok s
        /\ (s < -75
            \/ (s < -45
                /\ py_in (dict_get p "deviceMac" PNone) (WATCH_LIST __init__)
                   = false)).
Proof.
  split.
  - intros H.
    destruct (py_int (dict_get p "rssi" (PInt (-100)))) as [s | e] eqn:Hs.
    + rewrite (analyze_packet_default p s Hs) in H.
      exists s. split; [reflexivity |].
      destruct (Z.ltb_spec s (-75)); [left; lia |].
      destruct (py_in (dict_get p "deviceMac" PNone) (WATCH_LIST __init__));
        [discriminate H |].
      destruct (Z.leb_spec (-45) s); [discriminate H |].
      right. split; [lia | reflexivity].
    + rewrite analyze_packet_unfold, Hs in H. discriminate H.
  - intros (s & Hs & Hc).
    rewrite (analyze_packet_default p s Hs).
    destruct (Z.ltb_spec s (-75)); [reflexivity |].
    destruct Hc as [Hc | [Hc Hout]]; [lia |].
    rewrite Hout. destruct (Z.leb_spec (-45) s); [lia | reflexivity].
Qed.

Lemma analyze_packet_length (self : CiscoSignalProcessor) (p : gmap string pyval) :
  (length (analyze_packet self p) <= 1)%nat.
Proof.
  rewrite analyze_packet_unfold.
  destruct (py_int (dict_get p "rssi" (PInt (-100)))) as [s | e];
    [| simpl; lia].
  destruct (_trigger_events self (dict_get p "deviceMac" PNone) s
              (_calculate_proximity self s) (dict_get p "apMac" PNone)
              (dict_get p "ssid" (PStr "N/A"))); simpl; lia.
Qed.

(** Every packet adds at most one record to the log, so a run over any list
    of packets logs at most as many records as it has packets. *)
Theorem feed_length (self : CiscoSignalProcessor) (ps : list (gmap string pyval)) :
  (length (feed self ps) <= length ps)%nat.
Proof.
  induction ps as [| p ps IH]; [simpl; lia |].
  change (feed self (p :: ps)) with (analyze_packet self p ++ feed self ps)%list.
  rewrite length_app. pose proof (analyze_packet_length self p). simpl. lia.
Qed.

(** Only the four keys [deviceMac], [rssi], [apMac] and [ssid] are read:
    setting or removing any other key of a packet changes nothing. *)
Theorem other_keys_ignored (self : CiscoSignalProcessor)
    (p : gmap string pyval) (k : string) (v : pyval) :
  k <> "deviceMac" -> k <> "rssi" -> k <> "apMac" -> k <> "ssid" ->
  analyze_packet self (<[k := v]> p) = analyze_packet self p
  /\ analyze_packet self (delete k p) = analyze_packet self p.
Proof.
  intros Hm Hr Ha Hs. rewrite !analyze_packet_unfold. unfold dict_get.
  rewrite !(lookup_insert_ne p k _ v), !(lookup_delete_ne p k) by assumption.
  split; reflexivity.
Qed.

(** ** Signal strengths that are not integers *)

Lemma pretty_N_char_digit (d : N) :
  (d < 10)%N -> PyInt.digit_of (pretty_N_char d) = Some (Z.of_N d).
Proof.
  intros Hd.
  assert (d = 0 \/ d = 1 \/ d = 2 \/ d = 3 \/ d = 4 \/ d = 5 \/ d = 6
          \/ d = 7 \/ d = 8 \/ d = 9)%N as Hc by lia.
  repeat (destruct Hc as [-> | Hc]; [reflexivity |]). subst d. reflexivity.
Qed.

(** A string that starts with a digit is read as an unsigned literal. *)
Lemma of_str_digit_head (d : N) (rest : string) :
  (d < 10)%N ->
  PyInt.of_str (String (pretty_N_char d) rest)
  = match PyInt.digits 0 false (String (pretty_N_char d) rest) with
    | Some z => Ok z
    | None => Raise ValueError
    end
  /\ PyInt.of_str ("-" +:+ String (pretty_N_char d) rest)
     = match PyInt.digits 0 false (String (pretty_N_char d) rest) with
       | Some z => Ok (- z)
       | None => Raise ValueError
       end.
Proof.
  intros Hd.
  assert (d = 0 \/ d = 1 \/ d = 2 \/ d = 3 \/ d = 4 \/ d = 5 \/ d = 6
          \/ d = 7 \/ d = 8 \/ d = 9)%N as Hc by lia.
  assert (Hopp : forall o : option Z,
            match Z.opp <$> o with Some z => Ok z | None => Raise ValueError end
            = match o with Some z => Ok (- z) | None => Raise ValueError end)
    by (intros [z |]; reflexivity).
  repeat (destruct Hc as [-> | Hc]; [split; [reflexivity | apply Hopp] |]).
  subst d. split; [reflexivity | apply Hopp].
Qed.

(** The decimal digits stdpp prints for [x] start with a digit. *)
Lemma pretty_N_go_head (x : N) (s : string) :
  (0 < x)%N ->
  exists d rest, (d < 10)%N /\ pretty_N_go x s = String (pretty_N_char d) rest.
Proof.
  revert s. induction (N.lt_wf_0 x) as [x _ IH]. intros s Hx.
  rewrite pretty_N_go_step by exact Hx.
  destruct (N.eq_dec (x / 10)%N 0%N) as [H0 | H0].
  - rewrite H0, pretty_N_go_0. exists (x mod 10)%N, s.
    split; [apply N.mod_lt; discriminate | reflexivity].
  - apply IH; [apply N.div_lt; [exact Hx | reflexivity] |].
    apply N.neq_0_lt_0. exact H0.
Qed.

(** Reading the digits printed for [x] continues the number read so far. *)
Lemma digits_pretty_N_go (x : N) (acc : Z) (s : string) :
  exists k : Z,
    0 <= k
    /\ PyInt.digits acc false (pretty_N_go x s)
       = PyInt.digits (acc * 10 ^ k + Z.of_N x) false s.
Proof.
  revert acc s. induction (N.lt_wf_0 x) as [x _ IH]. intros acc s.
  destruct (N.eq_dec x 0%N) as [-> | Hx].
  - exists 0. split; [lia |]. rewrite pretty_N_go_0. f_equal. lia.
  - rewrite pretty_N_go_step by lia.
    destruct (IH (x / 10)%N (N.div_lt x 10 ltac:(lia) eq_refl) acc
                (String (pretty_N_char (x mod 10)%N) s)) as (k & Hk & E).
    exists (k + 1). split; [lia |]. rewrite E.
    change (PyInt.digits (acc * 10 ^ k + Z.of_N (x / 10)%N) false
              (String (pretty_N_char (x mod 10)%N) s))
      with (match PyInt.digit_of (pretty_N_char (x mod 10)%N) with
            | Some d => PyInt.digits (10 * (acc * 10 ^ k + Z.of_N (x / 10)%N) + d) false s
            | None =>
                if Ascii.eqb (pretty_N_char (x mod 10)%N) "_"
                then PyInt.digits (acc * 10 ^ k + Z.of_N (x / 10)%N) true s
                else if PyInt.all_space (String (pretty_N_char (x mod 10)%N) s)
                     then Some (acc * 10 ^ k + Z.of_N (x / 10)%N)
                     else None
            end).
    rewrite pretty_N_char_digit by (apply N.mod_lt; discriminate).
    f_equal. rewrite Z.pow_add_r, Z.pow_1_r by lia.
    pose proof (N.div_mod x 10 ltac:(discriminate)) as Hdm.
    assert (Z.of_N x = 10 * Z.of_N (x / 10)%N + Z.of_N (x mod 10)%N) as -> by lia.
    ring.
Qed.

(** [int(str(z)) == z]: the text printed for an integer reads back as it. *)
Lemma py_int_pretty (z : Z) : py_int (PStr (pretty z)) = Ok z.
Proof.
  assert (Hpos : forall q : positive,
            exists d rest, (d < 10)%N
              /\ pretty (N.pos q) = String (pretty_N_char d) rest
              /\ PyInt.digits 0 false (String (pretty_N_char d) rest)
                 = Some (Z.pos q)).
  { intros q. unfold pretty, pretty_N.
    destruct (decide (N.pos q = 0%N)) as [H | _]; [discriminate H |].
    destruct (pretty_N_go_head (N.pos q) "" ltac:(lia)) as (d & rest & Hd & E).
    exists d, rest. split; [exact Hd |]. split; [exact E |].
    rewrite <- E.
    destruct (digits_pretty_N_go (N.pos q) 0 "") as (k & _ & ->).
    rewrite Z.mul_0_l, Z.add_0_l. reflexivity. }
  destruct z as [| q | q]; [reflexivity | |].
  - destruct (Hpos q) as (d & rest & Hd & E & Hr).
    change (py_int (PStr (pretty (Z.pos q)))) with (PyInt.of_str (pretty (N.pos q))).
    rewrite E, (proj1 (of_str_digit_head d rest Hd)), Hr. reflexivity.
  - destruct (Hpos q) as (d & rest & Hd & E & Hr).
    change (py_int (PStr (pretty (Z.neg q))))
      with (PyInt.of_str ("-" +:+ pretty (N.pos q))).
    rewrite E, (proj2 (of_str_digit_head d rest Hd)), Hr. reflexivity.
Qed.

(** A packet that carries its signal strength as the decimal text of an
    integer is processed exactly like the packet that carries the integer. *)
Theorem rssi_decimal_text (self : CiscoSignalProcessor)
    (p : gmap string pyval) (z : Z) :
  py_int (PStr (pretty z)) = Ok z
  /\ analyze_packet self (<["rssi" := PStr (pretty z)]> p)
     = analyze_packet self (<["rssi" := PInt z]> p).
Proof.
  split; [apply py_int_pretty |].
  rewrite !analyze_packet_unfold. unfold dict_get.
  rewrite !lookup_insert_eq, !lookup_insert_ne by discriminate.
  cbn [from_option id]. rewrite py_int_pretty. reflexivity.
Qed.

(** An [rssi] that is present but cannot be read is not defaulted the way an
    absent one is: the packet is dropped with one error record.  This is so
    for [None] (a JSON null), the empty string, a NaN and the infinities. *)
Theorem rssi_present_unreadable (self : CiscoSignalProcessor) (p : gmap string pyval) :
  (p !! "rssi" = Some PNone -> analyze_packet self p = [LogError TypeError])
  /\ (p !! "rssi" = Some (PStr "") -> analyze_packet self p = [LogError ValueError])
  /\ (p !! "rssi" = Some (PFloat S754_nan) ->
      analyze_packet self p = [LogError ValueError])
  /\ (forall b, p !! "rssi" = Some (PFloat (S754_infinity b)) ->
      analyze_packet self p = [LogError OverflowError]).
Proof.
  repeat split; intros; rewrite analyze_packet_unfold;
    erewrite dict_get_present by eassumption; reflexivity.
Qed.

(** [int] cuts the fraction of a float off, toward zero.  A negative
    reading -m * 2^e between -(t+1), excluded, and -t is therefore handled as
    the integer -t: a reading of -75.5 counts as -75. *)
Theorem rssi_float_truncated (self : CiscoSignalProcessor)
    (p : gmap string pyval) (m : positive) (e t : Z) :
  e <= 0 ->
  t * 2 ^ (- e) <= Z.pos m < (t + 1) * 2 ^ (- e) ->
  p !! "rssi" = Some (PFloat (S754_finite true m e)) ->
  py_int (PFloat (S754_finite true m e)) = Ok (- t)
  /\ analyze_packet self p = analyze_packet self (<["rssi" := PInt (- t)]> p).
Proof.
  intros He Hm Hp.
  assert (Hi : py_int (PFloat (S754_finite true m e)) = Ok (- t)).
  { simpl. do 2 f_equal.
    rewrite <- (Z.opp_involutive e) at 1.
    rewrite Z.shiftl_opp_r, Z.shiftr_div_pow2 by lia.
    assert (0 < 2 ^ (- e)) by (apply Z.pow_pos_nonneg; lia).
    symmetry. apply Z.div_unique with (r := Z.pos m - t * 2 ^ (- e)); lia. }
  split; [exact Hi |].
  rewrite !analyze_packet_unfold. unfold dict_get.
  rewrite Hp, lookup_insert_eq, !lookup_insert_ne by discriminate.
  cbn [from_option id]. rewrite Hi. reflexivity.
Qed.

(** ** The driver loop *)

Lemma randint_range (draw : nat) : -3 <= randint (-3) 3 draw <= 3.
Proof.
  unfold randint. change (Z.to_nat (3 - -3 + 1)) with 7%nat.
  pose proof (Nat.mod_upper_bound draw 7 ltac:(discriminate)). lia.
Qed.

(** The jitter is small enough to be converted to a float. *)
Lemma float_of_int_jitter (draw : nat) :
  exists g, float_of_int (randint (-3) 3 draw) = Ok g.
Proof.
  pose proof (randint_range draw) as H.
  assert (randint (-3) 3 draw = -3 \/ randint (-3) 3 draw = -2
          \/ randint (-3) 3 draw = -1 \/ randint (-3) 3 draw = 0
          \/ randint (-3) 3 draw = 1 \/ randint (-3) 3 draw = 2
          \/ randint (-3) 3 draw = 3) as Hc by lia.
  repeat (destruct Hc as [-> | Hc]; [eexists; vm_compute; reflexivity |]).
  rewrite Hc. eexists; vm_compute; reflexivity.
Qed.

Lemma chosen_index (store : list (gmap string pyval)) (draw : nat) :
  store <> [] -> exists p, store !! (draw mod length store)%nat = Some p.
Proof.
  intros Hne. apply lookup_lt_is_Some_2, Nat.mod_upper_bound.
  destruct store; [contradiction | discriminate].
Qed.

(** A turn on a packet with an integer reading. *)
Lemma loop_body_int (self : CiscoSignalProcessor) (store : list (gmap string pyval))
    (draw : nat * nat) (p : gmap string pyval) (z : Z) :
  store !! (fst draw mod length store)%nat = Some p ->
  p !! "rssi" = Some (PInt z) ->
  loop_body self store draw
  = Done (<[(fst draw mod length store)%nat :=
              <["rssi" := PInt (z + randint (-3) 3 (snd draw))]> p]> store,
          analyze_packet self (<["rssi" := PInt (z + randint (-3) 3 (snd draw))]> p)).
Proof. unfold loop_body. intros -> ->. reflexivity. Qed.

(** A turn of the loop touches one thing: the [rssi] of the packet it
    chose.  The list keeps its length and its other packets, the chosen
    packet keeps its other fields, the new reading is the old one plus a
    jitter between -3 and 3, and what is analyzed is the packet as changed. *)
Theorem loop_body_frame (self : CiscoSignalProcessor)
    (store store' : list (gmap string pyval)) (draw : nat * nat)
    (records : list log_record) :
  loop_body self store draw = Done (store', records) ->
  length store' = length store
  /\ (forall k, k <> (fst draw mod length store)%nat -> store' !! k = store !! k)
  /\ exists p p' old new j,
       store !! (fst draw mod length store)%nat = Some p
       /\ store' !! (fst draw mod length store)%nat = Some p'
       /\ (forall key, key <> "rssi" -> p' !! key = p !! key)
       /\ p !! "rssi" = Some old
       /\ p' !! "rssi" = Some new
       /\ -3 <= j <= 3
       /\ py_add_int old j = Ok new
       /\ records = analyze_packet self p'.
Proof.
  unfold loop_body.
  destruct (store !! (fst draw mod length store)%nat) as [p |] eqn:Hp;
    [| discriminate].
  destruct (p !! "rssi") as [old |] eqn:Hold; [| discriminate].
  destruct (py_add_int old (randint (-3) 3 (snd draw))) as [new | e] eqn:Hadd;
    [| discriminate].
  intros [= <- <-].
  split; [apply length_insert |].
  split; [intros k Hk; apply list_lookup_insert_ne; congruence |].
  exists p, (<["rssi" := new]> p), old, new, (randint (-3) 3 (snd draw)).
  split; [reflexivity |].
  split; [apply list_lookup_insert_eq; eapply lookup_lt_Some; exact Hp |].
  split; [intros key Hkey; apply lookup_insert_ne; congruence |].
  split; [exact Hold |].
  split; [apply lookup_insert_eq |].
  split; [apply randint_range |].
  split; [exact Hadd | reflexivity].
Qed.

(** What ends the loop.  The addition of the jitter is outside the [try] of
    [analyze_packet]: an empty list, a chosen packet without [rssi], or one
    whose [rssi] is [None] or a string (even a numeric one) is an uncaught
    exception, although [analyze_packet] alone would have handled each of
    these packets.  A boolean, integer or float reading never ends it. *)
Theorem loop_body_crash (self : CiscoSignalProcessor)
    (store : list (gmap string pyval)) (draw : nat * nat) :
  (store = [] -> loop_body self store draw = Crash IndexError)
  /\ (forall p, store !! (fst draw mod length store)%nat = Some p ->
        (p !! "rssi" = None -> loop_body self store draw = Crash KeyError)
        /\ (p !! "rssi" = Some PNone ->
            loop_body self store draw = Crash (Uncaught TypeError))
        /\ (forall t, p !! "rssi" = Some (PStr t) ->
            loop_body self store draw = Crash (Uncaught TypeError))
        /\ (forall v, p !! "rssi" = Some v ->
            (exists b, v = PBool b) \/ (exists z, v = PInt z)
            \/ (exists f, v = PFloat f) ->
            exists store' records,
              loop_body self store draw = Done (store', records))).
Proof.
  split; [intros ->; reflexivity |].
  intros p Hp. unfold loop_body. rewrite Hp.
  split; [intros ->; reflexivity |].
  split; [intros ->; reflexivity |].
  split; [intros t ->; reflexivity |].
  intros v -> [[b ->] | [[z ->] | [f ->]]];
    unfold py_add_int, mbind, result_bind.
  - eexists _, _. reflexivity.
  - eexists _, _. reflexivity.
  - destruct (float_of_int_jitter (snd draw)) as [g ->]. eexists _, _. reflexivity.
Qed.

Lemma analyze_packet_int_no_error (self : CiscoSignalProcessor)
    (p : gmap string pyval) (z : Z) (r : log_record) :
  In r (analyze_packet self (<["rssi" := PInt z]> p)) -> forall e, r <> LogError e.
Proof.
  rewrite analyze_packet_unfold. unfold dict_get at 1.
  rewrite lookup_insert_eq. cbn [from_option id py_int].
  destruct (_trigger_events _ _ _ _ _ _); simpl; intros H e;
    first [contradiction | destruct H as [<- | []]; discriminate].
Qed.

(** A run of the loop from a list whose readings are all integers, by
    induction on the draws: it does not end, the readings move by the jitter
    of the turns that chose them, and every record comes from a packet of
    the list with its reading moved by at most 3 per turn. *)
Lemma loop_walk (self : CiscoSignalProcessor) (draws : list (nat * nat)) :
  forall store : list (gmap string pyval),
    store <> [] ->
    Forall (fun p => exists z, p !! "rssi" = Some (PInt z)) store ->
    exists records store',
      loop self store draws = (records, Done store')
      /\ length store' = length store
      /\ (forall i p z, store !! i = Some p -> p !! "rssi" = Some (PInt z) ->
            store' !! i
            = Some (<["rssi" := PInt (z + jitter_sum i (length store) draws)]> p))
      /\ Forall (fun r => exists i p z0 z,
                   store !! i = Some p
                   /\ p !! "rssi" = Some (PInt z0)
                   /\ - 3 * Z.of_nat (length draws) <= z - z0
                      <= 3 * Z.of_nat (length draws)
                   /\ In r (analyze_packet self (<["rssi" := PInt z]> p)))
           records
      /\ (length records <= length draws)%nat.
Proof.
  induction draws as [| draw draws IH]; intros store Hne Hint.
  - exists [], store. split; [reflexivity |]. split; [reflexivity |].
    split; [| split; [constructor | simpl; lia]].
    intros i p z Hp Hz. simpl. rewrite Z.add_0_r, Hp. f_equal.
    symmetry. apply insert_id. exact Hz.
  - destruct (chosen_index store (fst draw) Hne) as [p0 Hp0].
    destruct (proj1 (Forall_lookup _ _) Hint _ _ Hp0) as [z0 Hz0].
    pose proof (randint_range (snd draw)) as Hj.
    set (j := randint (-3) 3 (snd draw)) in *.
    set (i0 := (fst draw mod length store)%nat) in *.
    assert (Hi0 : (i0 < length store)%nat) by (eapply lookup_lt_Some; exact Hp0).
    set (store1 := <[i0 := <["rssi" := PInt (z0 + j)]> p0]> store).
    assert (Hlen1 : length store1 = length store) by apply length_insert.
    destruct (IH store1) as (rest & store' & Hrun & Hlen & Hwalk & Horigin & Hcount).
    { intros H. apply (f_equal length) in H. rewrite Hlen1 in H.
      destruct store; [contradiction | discriminate]. }
    { apply Forall_insert; [exact Hint |]. exists (z0 + j). apply lookup_insert_eq. }
    exists (analyze_packet self (<["rssi" := PInt (z0 + j)]> p0) ++ rest)%list, store'.
    split.
    { cbn [loop]. rewrite (loop_body_int self store draw p0 z0 Hp0 Hz0).
      fold j i0 store1. rewrite Hrun. reflexivity. }
    split; [congruence |].
    split; [| split].
    + intros i p z Hp Hz. cbn [jitter_sum]. fold i0 j.
      destruct (Nat.eqb_spec i0 i) as [<- | Hi].
      * assert (p = p0) as -> by congruence. assert (z = z0) as -> by congruence.
        rewrite (Hwalk i0 (<["rssi" := PInt (z0 + j)]> p0) (z0 + j)).
        -- rewrite insert_insert_eq, Hlen1, Z.add_assoc. reflexivity.
        -- apply list_lookup_insert_eq. exact Hi0.
        -- apply lookup_insert_eq.
      * rewrite (Hwalk i p z).
        -- rewrite Hlen1, Z.add_0_l. reflexivity.
        -- unfold store1. rewrite list_lookup_insert_ne by exact Hi. exact Hp.
        -- exact Hz.
    + apply Forall_app. split.
      * apply Forall_forall. intros r Hr. apply list_elem_of_In in Hr.
        exists i0, p0, z0, (z0 + j). repeat split; [exact Hp0 | exact Hz0 | | | exact Hr];
          cbn [length]; lia.
      * eapply Forall_impl; [exact Horigin |].
        intros r (i & p1 & z1 & z & Hp1 & Hz1 & Hb & Hr).
        destruct (Nat.eq_dec i0 i) as [<- | Hi].
        -- unfold store1 in Hp1. rewrite list_lookup_insert_eq in Hp1 by exact Hi0.
           injection Hp1 as <-. rewrite lookup_insert_eq in Hz1.
           injection Hz1 as <-. rewrite insert_insert_eq in Hr.
           exists i0, p0, z0, z.
           repeat split; [exact Hp0 | exact Hz0 | | | exact Hr]; cbn [length]; lia.
        -- unfold store1 in Hp1. rewrite list_lookup_insert_ne in Hp1 by exact Hi.
           exists i, p1, z1, z.
           repeat split; [exact Hp1 | exact Hz1 | | | exact Hr]; cbn [length]; lia.
    + rewrite length_app. pose proof (analyze_packet_length self
                                        (<["rssi" := PInt (z0 + j)]> p0)).
      cbn [length]. lia.
Qed.

(** The readings take a random walk.  From a non-empty list of packets with
    integer readings the loop never stops by an exception; after any run
    each packet differs from what it was only by its reading, which is the
    old one plus the jitter of all the turns that chose it; and no error
    record is logged. *)
Theorem loop_random_walk (self : CiscoSignalProcessor)
    (store : list (gmap string pyval)) (draws : list (nat * nat)) :
  store <> [] ->
  Forall (fun p => exists z, p !! "rssi" = Some (PInt z)) store ->
  exists records store',
    loop self store draws = (records, Done store')
    /\ length store' = length store
    /\ (forall i p z, store !! i = Some p -> p !! "rssi" = Some (PInt z) ->
          store' !! i
          = Some (<["rssi" := PInt (z + jitter_sum i (length store) draws)]> p))
    /\ (forall r e, In r records -> r <> LogError e)
    /\ (length records <= length draws)%nat.
Proof.
  intros Hne Hint.
  destruct (loop_walk self draws store Hne Hint)
    as (records & store' & Hrun & Hlen & Hwalk & Horigin & Hcount).
  exists records, store'. repeat split; try assumption.
  intros r e Hr.
  apply list_elem_of_In in Hr.
  destruct (proj1 (Forall_forall _ _) Horigin r Hr) as (i & p & z0 & z & _ & _ & _ & Hin).
  exact (analyze_packet_int_no_error self p z r Hin e).
Qed.

Lemma jitter_sum_bound (i n : nat) (draws : list (nat * nat)) :
  - 3 * Z.of_nat (length draws) <= jitter_sum i n draws
  <= 3 * Z.of_nat (length draws).
Proof.
  induction draws as [| draw draws IH]; [simpl; lia |].
  cbn [jitter_sum length]. pose proof (randint_range (snd draw)).
  destruct (fst draw mod n =? i)%nat; lia.
Qed.

(** However the draws fall, a run of [n] turns moves no reading by more than
    [3 * n] dBm from where it started. *)
Theorem loop_reading_bound (self : CiscoSignalProcessor)
    (store : list (gmap string pyval)) (draws : list (nat * nat))
    (i : nat) (p : gmap string pyval) (z : Z) :
  Forall (fun p => exists z, p !! "rssi" = Some (PInt z)) store ->
  store !! i = Some p ->
  p !! "rssi" = Some (PInt z) ->
  exists store' z',
    snd (loop self store draws) = Done store'
    /\ store' !! i = Some (<["rssi" := PInt z']> p)
    /\ - 3 * Z.of_nat (length draws) <= z' - z <= 3 * Z.of_nat (length draws).
Proof.
  intros Hint Hp Hz.
  assert (Hne : store <> []) by (intros ->; discriminate Hp).
  destruct (loop_walk self draws store Hne Hint)
    as (records & store' & Hrun & _ & Hwalk & _ & _).
  exists store', (z + jitter_sum i (length store) draws).
  rewrite Hrun. split; [reflexivity |].
  split; [exact (Hwalk i p z Hp Hz) |].
  pose proof (jitter_sum_bound i (length store) draws). lia.
Qed.

(** ** The driver on its mock data *)

Lemma mock_data_int :
  mock_data <> []
  /\ Forall (fun p => exists z, p !! "rssi" = Some (PInt z)) mock_data.
Proof.
  split; [discriminate |].
  repeat constructor; eexists; vm_compute; reflexivity.
Qed.

(** What the default processor logs for a mock packet whose reading has
    become [z]. *)
Lemma mock_analyze (i : nat) (p : gmap string pyval) (z : Z) :
  mock_data !! i = Some p ->
  analyze_packet __init__ (<["rssi" := PInt z]> p)
  = if (z <? -75)%Z then []
    else match i with
         | 0%nat =>
             if (-45 <=? z)%Z then
               [LogInfo (" Active User: Device: 11:22:33:44:55:66 | Signal: "
                         +:+ pretty z +:+ "dBm | Status: "
                         +:+ _calculate_proximity __init__ z
                         +:+ " | AP: AP_Lobby_01 | Probing: FreeWiFi")]
             else []
         | 1%nat =>
             [LogWarning (" TARGET DETECTED! Device: AA:BB:CC:DD:EE:FF | Signal: "
                          +:+ pretty z +:+ "dBm | Status: "
                          +:+ _calculate_proximity __init__ z
                          +:+ " | AP: AP_Lobby_01")]
         | _ =>
             [LogWarning (" TARGET DETECTED! Device: 00:11:22:33:44:55 | Signal: "
                          +:+ pretty z +:+ "dBm | Status: "
                          +:+ _calculate_proximity __init__ z
                          +:+ " | AP: AP_Library_Desk")]
         end.
Proof.
  intros Hp.
  rewrite (analyze_packet_default _ z)
    by (unfold dict_get; rewrite lookup_insert_eq; reflexivity).
  destruct (z <? -75)%Z; [reflexivity |].
  unfold dict_get. rewrite !(lookup_insert_ne _ "rssi") by discriminate.
  destruct i as [| [| [| i]]]; [| | | discriminate Hp];
    injection Hp as <-;
    repeat (rewrite lookup_insert_eq || rewrite lookup_singleton_eq
            || rewrite lookup_insert_ne by discriminate);
    cbn [from_option id py_str py_in existsb py_eq_str WATCH_LIST __init__];
    reflexivity.
Qed.

(** The mock stream never stops by an exception and logs no error, for any
    draws.  Its three packets keep their fields, except for the readings:
    these drift from -85, -60 and -40 by the total jitter of the turns that
    chose them, since the jitter is added to the packets of the list itself. *)
Theorem mock_stream_walk (draws : list (nat * nat)) :
  stdout (mock_cisco_data_stream draws)
  = ["--- Cisco Wireless Signal Monitor Started ---"]
  /\ final (mock_cisco_data_stream draws)
     = Done [
         {[ "deviceMac" := PStr "11:22:33:44:55:66";
            "rssi" := PInt (-85 + jitter_sum 0 3 draws);
            "apMac" := PStr "AP_Lobby_01"; "ssid" := PStr "FreeWiFi" ]};
         {[ "deviceMac" := PStr "AA:BB:CC:DD:EE:FF";
            "rssi" := PInt (-60 + jitter_sum 1 3 draws);
            "apMac" := PStr "AP_Lobby_01"; "ssid" := PStr "CorpNet" ]};
         {[ "deviceMac" := PStr "00:11:22:33:44:55";
            "rssi" := PInt (-40 + jitter_sum 2 3 draws);
            "apMac" := PStr "AP_Library_Desk"; "ssid" := PStr "Library_Guest" ]} ]
  /\ Forall (fun r => forall e, r <> LogError e) (log (mock_cisco_data_stream draws))
  /\ (length (log (mock_cisco_data_stream draws)) <= length draws)%nat.
Proof.
  destruct mock_data_int as [Hne Hint].
  destruct (loop_walk __init__ draws mock_data Hne Hint)
    as (records & store' & Hrun & Hlen & Hwalk & Horigin & Hcount).
  unfold mock_cisco_data_stream. rewrite Hrun. cbn [stdout final log].
  split; [reflexivity |].
  split; [| split; [| exact Hcount]].
  - pose proof (Hwalk 0%nat _ (-85) eq_refl ltac:(vm_compute; reflexivity)) as H0.
    pose proof (Hwalk 1%nat _ (-60) eq_refl ltac:(vm_compute; reflexivity)) as H1.
    pose proof (Hwalk 2%nat _ (-40) eq_refl ltac:(vm_compute; reflexivity)) as H2.
    change (length mock_data) with 3%nat in *.
    destruct store' as [| a [| b [| c [| d store']]]]; try discriminate Hlen.
    injection H0 as ->. injection H1 as ->. injection H2 as ->.
    generalize (-85 + jitter_sum 0 3 draws), (-60 + jitter_sum 1 3 draws),
      (-40 + jitter_sum 2 3 draws).
    intros x y z. vm_compute. reflexivity.
  - eapply Forall_impl; [exact Horigin |].
    intros r (i & p & z0 & z & _ & _ & _ & Hin) e.
    exact (analyze_packet_int_no_error __init__ p z r Hin e).
Qed.

(** In the log of the mock stream every record is an alert for one of the two
    watch-listed devices or an activity note for the third device: that one
    is never reported as a target, the other two never as active users. *)
Theorem mock_stream_records (draws : list (nat * nat)) :
  Forall (fun r =>
            (exists rest, r = LogWarning
               (" TARGET DETECTED! Device: AA:BB:CC:DD:EE:FF | Signal: " +:+ rest))
            \/ (exists rest, r = LogWarning
                  (" TARGET DETECTED! Device: 00:11:22:33:44:55 | Signal: " +:+ rest))
            \/ (exists rest, r = LogInfo
                  (" Active User: Device: 11:22:33:44:55:66 | Signal: " +:+ rest)))
    (log (mock_cisco_data_stream draws)).
Proof.
  destruct mock_data_int as [Hne Hint].
  destruct (loop_walk __init__ draws mock_data Hne Hint)
    as (records & store' & Hrun & _ & _ & Horigin & _).
  unfold mock_cisco_data_stream. rewrite Hrun. cbn [log].
  eapply Forall_impl; [exact Horigin |].
  intros r (i & p & z0 & z & Hp & _ & _ & Hr).
  rewrite (mock_analyze i p z Hp) in Hr.
  destruct (z <? -75)%Z; [contradiction |].
  destruct i as [| [| [| i]]]; [| | | discriminate Hp].
  - destruct (-45 <=? z)%Z; [| contradiction].
    destruct Hr as [<- | []]. right; right. eexists. reflexivity.
  - destruct Hr as [<- | []]. left. eexists. reflexivity.
  - destruct Hr as [<- | []]. right; left. eexists. reflexivity.
Qed.

(** The third device starts at -85 dBm and gains at most 3 dBm per turn, so
    it cannot reach -45 dBm in 13 turns: until then the log holds alerts
    only. *)
Theorem mock_stream_first_turns (draws : list (nat * nat)) :
  (length draws <= 13)%nat ->
  Forall (fun r => exists msg, r = LogWarning msg)
    (log (mock_cisco_data_stream draws)).
Proof.
  intros Hturns.
  destruct mock_data_int as [Hne Hint].
  destruct (loop_walk __init__ draws mock_data Hne Hint)
    as (records & store' & Hrun & _ & _ & Horigin & _).
  unfold mock_cisco_data_stream. rewrite Hrun. cbn [log].
  eapply Forall_impl; [exact Horigin |].
  intros r (i & p & z0 & z & Hp & Hz0 & Hb & Hr).
  rewrite (mock_analyze i p z Hp) in Hr.
  destruct (z <? -75)%Z; [contradiction |].
  destruct i as [| [| [| i]]]; [| | | discriminate Hp].
  - injection Hp as <-.
    assert (z0 = -85) as -> by (vm_compute in Hz0; congruence).
    destruct (Z.leb_spec (-45) z); [lia | contradiction].
  - destruct Hr as [<- | []]. eexists. reflexivity.
  - destruct Hr as [<- | []]. eexists. reflexivity.
Qed.

End Radar.

(** * Concrete runs

    No float occurs in the packets below, so any rendering of floats does. *)

(** The three mock packets, each drawn once and without jitter: the
    stranger at -85 is suppressed, both watch-listed devices raise an alert,
    the one at -40 included. *)
Example feed_mock_data :
  feed (fun _ => "") __init__ mock_data
  = [ LogWarning " TARGET DETECTED! Device: AA:BB:CC:DD:EE:FF | Signal: -60dBm | Status: NEAR (2m - 10m) | AP: AP_Lobby_01";
      LogWarning " TARGET DETECTED! Device: 00:11:22:33:44:55 | Signal: -40dBm | Status: IMMEDIATE (< 2m) | AP: AP_Library_Desk" ].
Proof. vm_compute. reflexivity. Qed.

(** A device off the watch list at -40 dBm is noted with the probed name. *)
Example analyze_stranger_immediate :
  analyze_packet (fun _ => "") __init__
    {[ "deviceMac" := PStr "11:22:33:44:55:66"; "rssi" := PInt (-40);
       "apMac" := PStr "AP_Lobby_01"; "ssid" := PStr "FreeWiFi" ]}
  = [ LogInfo " Active User: Device: 11:22:33:44:55:66 | Signal: -40dBm | Status: IMMEDIATE (< 2m) | AP: AP_Lobby_01 | Probing: FreeWiFi" ].
Proof. vm_compute. reflexivity. Qed.

(** -50 dBm is below the Immediate threshold: the classifier says Near, and
    [analyze_packet] logs nothing for a device off the watch list. *)
Example analyze_stranger_minus_50 :
  _calculate_proximity __init__ (-50) = label Near
  /\ try_block (fun _ => "") __init__
       {[ "deviceMac" := PStr "11:22:33:44:55:66"; "rssi" := PInt (-50);
          "apMac" := PStr "AP_Lobby_01"; "ssid" := PStr "FreeWiFi" ]}
     = Ok NoAction.
Proof. split; vm_compute; reflexivity. Qed.

Example analyze_stranger_far :
  try_block (fun _ => "") __init__
    {[ "deviceMac" := PStr "11:22:33:44:55:66"; "rssi" := PInt (-70);
       "apMac" := PStr "AP_Lobby_01"; "ssid" := PStr "FreeWiFi" ]}
  = Ok NoAction.
Proof. vm_compute. reflexivity. Qed.

(** A malformed packet between two good ones costs one error record. *)
Example feed_with_malformed :
  feed (fun _ => "") __init__
    [ {[ "deviceMac" := PStr "AA:BB:CC:DD:EE:FF"; "rssi" := PStr "-60";
         "apMac" := PStr "AP_Lobby_01" ]};
      {[ "deviceMac" := PStr "AA:BB:CC:DD:EE:FF"; "rssi" := PNone ]};
      {[ "rssi" := PInt 0; "apMac" := PStr "AP_Lobby_01" ]} ]
  = [ LogWarning " TARGET DETECTED! Device: AA:BB:CC:DD:EE:FF | Signal: -60dBm | Status: NEAR (2m - 10m) | AP: AP_Lobby_01";
      LogError TypeError;
      LogInfo " Active User: Device: None | Signal: 0dBm | Status: IMMEDIATE (< 2m) | AP: AP_Lobby_01 | Probing: N/A" ].
Proof. vm_compute. reflexivity. Qed.

(** ** Instances of the conditional theorems *)

Lemma classify_monotone_witness :
  -80 <= -40
  /\ exists c1 c2 : ProximityCategory,
       _calculate_proximity __init__ (-80) = label c1
       /\ _calculate_proximity __init__ (-40) = label c2
       /\ (rank c1 <= rank c2)%nat.
Proof.
  split; [lia | apply (classify_monotone __init__ (-80) (-40)); lia].
Defined.

Lemma watch_list_alert_witness :
  Immediate <> Noise
  /\ py_in (PStr "00:11:22:33:44:55") (WATCH_LIST __init__) = true
  /\ _trigger_events (fun _ => "") __init__ (PStr "00:11:22:33:44:55") (-40)
       (label Immediate) (PStr "AP_Library_Desk") (PStr "Library_Guest")
     = Alert (" TARGET DETECTED! Device: "
              +:+ py_str (fun _ => "") (PStr "00:11:22:33:44:55")
              +:+ " | Signal: " +:+ pretty (-40)
              +:+ "dBm | Status: " +:+ label Immediate
              +:+ " | AP: " +:+ py_str (fun _ => "") (PStr "AP_Library_Desk")).
Proof.
  split; [discriminate |]. split; [reflexivity |].
  apply (watch_list_alert (fun _ => "") __init__ (PStr "00:11:22:33:44:55")
           (-40) Immediate (PStr "AP_Library_Desk") (PStr "Library_Guest"));
    [discriminate | reflexivity].
Defined.

Lemma immediate_activity_witness :
  py_in (PStr "11:22:33:44:55:66") (WATCH_LIST __init__) = false
  /\ _trigger_events (fun _ => "") __init__ (PStr "11:22:33:44:55:66") (-40)
       (label Immediate) (PStr "AP_Lobby_01") (PStr "FreeWiFi")
     = Activity (" Active User: Device: "
                 +:+ py_str (fun _ => "") (PStr "11:22:33:44:55:66")
                 +:+ " | Signal: " +:+ pretty (-40)
                 +:+ "dBm | Status: " +:+ label Immediate
                 +:+ " | AP: " +:+ py_str (fun _ => "") (PStr "AP_Lobby_01")
                 +:+ " | Probing: " +:+ py_str (fun _ => "") (PStr "FreeWiFi")).
Proof.
  split; [reflexivity |].
  apply (immediate_activity (fun _ => "") __init__ (PStr "11:22:33:44:55:66")
           (-40) (PStr "AP_Lobby_01") (PStr "FreeWiFi")).
  reflexivity.
Defined.

Lemma near_far_no_action_witness :
  py_in (PStr "11:22:33:44:55:66") (WATCH_LIST __init__) = false
  /\ (Far = Near \/ Far = Far)
  /\ _trigger_events (fun _ => "") __init__ (PStr "11:22:33:44:55:66") (-70)
       (label Far) (PStr "AP_Lobby_01") (PStr "FreeWiFi") = NoAction
  /\ emit (_trigger_events (fun _ => "") __init__ (PStr "11:22:33:44:55:66") (-70)
             (label Far) (PStr "AP_Lobby_01") (PStr "FreeWiFi")) = [].
Proof.
  split; [reflexivity |]. split; [right; reflexivity |].
  apply (near_far_no_action (fun _ => "") __init__ (PStr "11:22:33:44:55:66")
           (-70) Far (PStr "AP_Lobby_01") (PStr "FreeWiFi"));
    [reflexivity | right; reflexivity].
Defined.

Lemma missing_rssi_suppressed_witness :
  ({[ "deviceMac" := PStr "00:11:22:33:44:55"; "apMac" := PStr "AP_Lobby_01" ]}
     : gmap string pyval) !! "rssi" = None
  /\ py_int (dict_get {[ "deviceMac" := PStr "00:11:22:33:44:55";
                         "apMac" := PStr "AP_Lobby_01" ]} "rssi" (PInt (-100)))
     = Ok (-100)
  /\ _calculate_proximity __init__ (-100) = label Noise
  /\ try_block (fun _ => "") __init__
       {[ "deviceMac" := PStr "00:11:22:33:44:55"; "apMac" := PStr "AP_Lobby_01" ]}
     = Ok Suppressed
  /\ analyze_packet (fun _ => "") __init__
       {[ "deviceMac" := PStr "00:11:22:33:44:55"; "apMac" := PStr "AP_Lobby_01" ]}
     = [].
Proof.
  split; [vm_compute; reflexivity |].
  apply (missing_rssi_suppressed (fun _ => "")
           {[ "deviceMac" := PStr "00:11:22:33:44:55";
              "apMac" := PStr "AP_Lobby_01" ]}).
  vm_compute; reflexivity.
Defined.

(** C10 as written fails: this packet has no [deviceMac] field and takes the
    error path, because its [rssi] is not a number. *)
Lemma absent_mac_malformed_rssi :
  ({[ "rssi" := PStr "abc"; "apMac" := PStr "AP_Lobby_01" ]}
     : gmap string pyval) !! "deviceMac" = None
  /\ try_block (fun _ => "") __init__
       {[ "rssi" := PStr "abc"; "apMac" := PStr "AP_Lobby_01" ]}
     = Raise ValueError
  /\ analyze_packet (fun _ => "") __init__
       {[ "rssi" := PStr "abc"; "apMac" := PStr "AP_Lobby_01" ]}
     = [LogError ValueError]
  /\ ~ (forall p : gmap string pyval,
          p !! "deviceMac" = None ->
          exists a, try_block (fun _ => "") __init__ p = Ok a).
Proof.
  split; [vm_compute; reflexivity |].
  split; [vm_compute; reflexivity |].
  split; [vm_compute; reflexivity |].
  intros H.
  destruct (H {[ "rssi" := PStr "abc"; "apMac" := PStr "AP_Lobby_01" ]}) as [a Ha];
    [vm_compute; reflexivity |].
  vm_compute in Ha. discriminate Ha.
Qed.

Lemma absent_mac_by_category_witness :
  ({[ "rssi" := PInt (-40); "apMac" := PStr "AP_Lobby_01" ]}
     : gmap string pyval) !! "deviceMac" = None
  /\ ((({[ "rssi" := PInt (-40); "apMac" := PStr "AP_Lobby_01" ]}
          : gmap string pyval) !! "rssi" = None /\ -40 = -100)
      \/ (exists v,
            ({[ "rssi" := PInt (-40); "apMac" := PStr "AP_Lobby_01" ]}
               : gmap string pyval) !! "rssi" = Some v
            /\ py_int v = Ok (-40)))
  /\ dict_get {[ "rssi" := PInt (-40); "apMac" := PStr "AP_Lobby_01" ]}
       "deviceMac" PNone = PNone
  /\ py_in PNone (WATCH_LIST __init__) = false
  /\ exists c : ProximityCategory,
       _calculate_proximity __init__ (-40) = label c
       /\ try_block (fun _ => "") __init__
            {[ "rssi" := PInt (-40); "apMac" := PStr "AP_Lobby_01" ]}
          = Ok match c with
               | Noise => Suppressed
               | Immediate =>
                   Activity (" Active User: Device: None"
                             +:+ " | Signal: " +:+ pretty (-40)
                             +:+ "dBm | Status: " +:+ label Immediate
                             +:+ " | AP: "
                             +:+ py_str (fun _ => "")
                                   (dict_get {[ "rssi" := PInt (-40);
                                                "apMac" := PStr "AP_Lobby_01" ]}
                                      "apMac" PNone)
                             +:+ " | Probing: "
                             +:+ py_str (fun _ => "")
                                   (dict_get {[ "rssi" := PInt (-40);
                                                "apMac" := PStr "AP_Lobby_01" ]}
                                      "ssid" (PStr "N/A")))
               | Near | Far => NoAction
               end
       /\ (forall msg,
             try_block (fun _ => "") __init__
               {[ "rssi" := PInt (-40); "apMac" := PStr "AP_Lobby_01" ]}
             <> Ok (Alert msg)).
Proof.
  split; [vm_compute; reflexivity |].
  split; [right; exists (PInt (-40)); split; vm_compute; reflexivity |].
  apply (absent_mac_by_category (fun _ => "") __init__
           {[ "rssi" := PInt (-40); "apMac" := PStr "AP_Lobby_01" ]} (-40));
    [vm_compute; reflexivity |].
  right. exists (PInt (-40)). split; vm_compute; reflexivity.
Defined.

(** ** Instances of the further conditional theorems *)

(** Fourteen turns that all pick the third device and add 3 dBm bring it to
    -43 dBm: the fourteenth turn logs the first activity note. *)
Example mock_stream_fourteenth_turn :
  log (mock_cisco_data_stream (fun _ => "") (repeat (0%nat, 6%nat) 14))
  = [ LogInfo " Active User: Device: 11:22:33:44:55:66 | Signal: -43dBm | Status: IMMEDIATE (< 2m) | AP: AP_Lobby_01 | Probing: FreeWiFi" ].
Proof. vm_compute. reflexivity. Qed.

Lemma classify_ordered_thresholds_witness :
  RSSI_THRESHOLD_FAR __init__ <= RSSI_THRESHOLD_NEAR __init__
  /\ RSSI_THRESHOLD_NEAR __init__ <= RSSI_THRESHOLD_IMMEDIATE __init__
  /\ exists c : ProximityCategory,
       _calculate_proximity __init__ (-50) = label c
       /\ (c = Immediate <-> RSSI_THRESHOLD_IMMEDIATE __init__ <= -50)
       /\ (c = Near <-> RSSI_THRESHOLD_NEAR __init__ <= -50
                        < RSSI_THRESHOLD_IMMEDIATE __init__)
       /\ (c = Far <-> RSSI_THRESHOLD_FAR __init__ <= -50
                       < RSSI_THRESHOLD_NEAR __init__)
       /\ (c = Noise <-> -50 < RSSI_THRESHOLD_FAR __init__).
Proof.
  split; [simpl; lia |]. split; [simpl; lia |].
  apply (classify_ordered_thresholds __init__ (-50)); simpl; lia.
Defined.

Lemma classify_jitter_neighbours_witness :
  -3 <= -44 - -46 <= 3
  /\ exists c1 c2 : ProximityCategory,
       _calculate_proximity __init__ (-46) = label c1
       /\ _calculate_proximity __init__ (-44) = label c2
       /\ (rank c1 <= rank c2 + 1)%nat
       /\ (rank c2 <= rank c1 + 1)%nat.
Proof.
  split; [lia | apply (classify_jitter_neighbours (-46) (-44)); lia].
Defined.

Lemma other_keys_ignored_witness :
  "timestamp" <> "deviceMac" /\ "timestamp" <> "rssi"
  /\ "timestamp" <> "apMac" /\ "timestamp" <> "ssid"
  /\ analyze_packet (fun _ => "") __init__
       (<["timestamp" := PInt 1700000000]>
          {[ "deviceMac" := PStr "AA:BB:CC:DD:EE:FF"; "rssi" := PInt (-60) ]})
     = analyze_packet (fun _ => "") __init__
         {[ "deviceMac" := PStr "AA:BB:CC:DD:EE:FF"; "rssi" := PInt (-60) ]}
  /\ analyze_packet (fun _ => "") __init__
       (delete "timestamp"
          {[ "deviceMac" := PStr "AA:BB:CC:DD:EE:FF"; "rssi" := PInt (-60) ]})
     = analyze_packet (fun _ => "") __init__
         {[ "deviceMac" := PStr "AA:BB:CC:DD:EE:FF"; "rssi" := PInt (-60) ]}.
Proof.
  do 4 (split; [discriminate |]).
  apply (other_keys_ignored (fun _ => "") __init__
           {[ "deviceMac" := PStr "AA:BB:CC:DD:EE:FF"; "rssi" := PInt (-60) ]}
           "timestamp" (PInt 1700000000)); discriminate.
Defined.

(** -75.5 is -(151 * 2^-1). *)
Lemma rssi_float_truncated_witness :
  -1 <= 0
  /\ 75 * 2 ^ (- -1) <= 151 < (75 + 1) * 2 ^ (- -1)
  /\ ({[ "deviceMac" := PStr "AA:BB:CC:DD:EE:FF";
         "rssi" := PFloat (S754_finite true 151 (-1)) ]}
        : gmap string pyval) !! "rssi"
     = Some (PFloat (S754_finite true 151 (-1)))
  /\ py_int (PFloat (S754_finite true 151 (-1))) = Ok (- 75)
  /\ analyze_packet (fun _ => "") __init__
       {[ "deviceMac" := PStr "AA:BB:CC:DD:EE:FF";
          "rssi" := PFloat (S754_finite true 151 (-1)) ]}
     = analyze_packet (fun _ => "") __init__
         (<["rssi" := PInt (- 75)]>
            {[ "deviceMac" := PStr "AA:BB:CC:DD:EE:FF";
               "rssi" := PFloat (S754_finite true 151 (-1)) ]}).
Proof.
  split; [lia |]. split; [simpl; lia |].
  split; [vm_compute; reflexivity |].
  apply (rssi_float_truncated (fun _ => "") __init__
           {[ "deviceMac" := PStr "AA:BB:CC:DD:EE:FF";
              "rssi" := PFloat (S754_finite true 151 (-1)) ]} 151 (-1) 75);
    [lia | simpl; lia | vm_compute; reflexivity].
Defined.

Lemma loop_body_frame_witness :
  loop_body (fun _ => "") __init__ [ {[ "rssi" := PInt (-41) ]} ] (0%nat, 4%nat)
  = Done ([ {[ "rssi" := PInt (-40) ]} ],
          [ LogInfo " Active User: Device: None | Signal: -40dBm | Status: IMMEDIATE (< 2m) | AP: None | Probing: N/A" ])
  /\ length [ ({[ "rssi" := PInt (-40) ]} : gmap string pyval) ]
     = length [ ({[ "rssi" := PInt (-41) ]} : gmap string pyval) ]
  /\ (forall k,
        k <> (fst (0%nat, 4%nat)
              mod length [ ({[ "rssi" := PInt (-41) ]} : gmap string pyval) ])%nat ->
        [ ({[ "rssi" := PInt (-40) ]} : gmap string pyval) ] !! k
        = [ ({[ "rssi" := PInt (-41) ]} : gmap string pyval) ] !! k)
  /\ exists p p' old new j,
       [ ({[ "rssi" := PInt (-41) ]} : gmap string pyval) ]
         !! (fst (0%nat, 4%nat)
             mod length [ ({[ "rssi" := PInt (-41) ]} : gmap string pyval) ])%nat
       = Some p
       /\ [ ({[ "rssi" := PInt (-40) ]} : gmap string pyval) ]
            !! (fst (0%nat, 4%nat)
                mod length [ ({[ "rssi" := PInt (-41) ]} : gmap string pyval) ])%nat
          = Some p'
       /\ (forall key, key <> "rssi" -> p' !! key = p !! key)
       /\ p !! "rssi" = Some old
       /\ p' !! "rssi" = Some new
       /\ -3 <= j <= 3
       /\ py_add_int old j = Ok new
       /\ [ LogInfo " Active User: Device: None | Signal: -40dBm | Status: IMMEDIATE (< 2m) | AP: None | Probing: N/A" ]
          = analyze_packet (fun _ => "") __init__ p'.
Proof.
  split; [vm_compute; reflexivity |].
  apply (loop_body_frame (fun _ => "") __init__
           [ {[ "rssi" := PInt (-41) ]} ] [ {[ "rssi" := PInt (-40) ]} ]
           (0%nat, 4%nat)).
  vm_compute; reflexivity.
Defined.

Lemma loop_random_walk_witness :
  mock_data <> []
  /\ Forall (fun p : gmap string pyval => exists z, p !! "rssi" = Some (PInt z))
       mock_data
  /\ exists records store',
       loop (fun _ => "") __init__ mock_data [(0%nat, 6%nat); (1%nat, 0%nat)]
       = (records, Done store')
       /\ length store' = length mock_data
       /\ (forall i p z, mock_data !! i = Some p -> p !! "rssi" = Some (PInt z) ->
             store' !! i
             = Some (<["rssi" := PInt (z + jitter_sum i (length mock_data)
                                             [(0%nat, 6%nat); (1%nat, 0%nat)])]> p))
       /\ (forall r e, In r records -> r <> LogError e)
       /\ (length records <= length [(0%nat, 6%nat); (1%nat, 0%nat)])%nat.
Proof.
  assert (Hne : mock_data <> []) by discriminate.
  assert (Hint : Forall (fun p : gmap string pyval =>
                           exists z, p !! "rssi" = Some (PInt z)) mock_data)
    by (repeat constructor; eexists; vm_compute; reflexivity).
  split; [exact Hne |]. split; [exact Hint |].
  apply (loop_random_walk (fun _ => "") __init__ mock_data
           [(0%nat, 6%nat); (1%nat, 0%nat)] Hne Hint).
Defined.

Lemma mock_stream_first_turns_witness :
  (length [(1%nat, 0%nat); (0%nat, 6%nat)] <= 13)%nat
  /\ Forall (fun r => exists msg, r = LogWarning msg)
       (log (mock_cisco_data_stream (fun _ => "") [(1%nat, 0%nat); (0%nat, 6%nat)])).
Proof.
  split; [simpl; lia |].
  apply (mock_stream_first_turns (fun _ => "") [(1%nat, 0%nat); (0%nat, 6%nat)]).
  simpl; lia.
Defined.

Lemma loop_reading_bound_witness :
  Forall (fun p : gmap string pyval => exists z, p !! "rssi" = Some (PInt z))
    mock_data
  /\ mock_data !! 1%nat
     = Some {[ "deviceMac" := PStr "AA:BB:CC:DD:EE:FF"; "rssi" := PInt (-60);
               "apMac" := PStr "AP_Lobby_01"; "ssid" := PStr "CorpNet" ]}
  /\ ({[ "deviceMac" := PStr "AA:BB:CC:DD:EE:FF"; "rssi" := PInt (-60);
         "apMac" := PStr "AP_Lobby_01"; "ssid" := PStr "CorpNet" ]}
        : gmap string pyval) !! "rssi" = Some (PInt (-60))
  /\ exists store' z',
       snd (loop (fun _ => "") __init__ mock_data [(1%nat, 0%nat); (1%nat, 0%nat)])
       = Done store'
       /\ store' !! 1%nat
          = Some (<["rssi" := PInt z']>
                    {[ "deviceMac" := PStr "AA:BB:CC:DD:EE:FF"; "rssi" := PInt (-60);
                       "apMac" := PStr "AP_Lobby_01"; "ssid" := PStr "CorpNet" ]})
       /\ - 3 * Z.of_nat (length [(1%nat, 0%nat); (1%nat, 0%nat)]) <= z' - -60
          <= 3 * Z.of_nat (length [(1%nat, 0%nat); (1%nat, 0%nat)]).
Proof.
  assert (Hint : Forall (fun p : gmap string pyval =>
                           exists z, p !! "rssi" = Some (PInt z)) mock_data)
    by (repeat constructor; eexists; vm_compute; reflexivity).
  split; [exact Hint |]. split; [reflexivity |].
  split; [vm_compute; reflexivity |].
  apply (loop_reading_bound (fun _ => "") __init__ mock_data
           [(1%nat, 0%nat); (1%nat, 0%nat)] 1%nat _ (-60) Hint);
    [reflexivity | vm_compute; reflexivity].
Defined.
